(** * mcpify-rest-apis: the demo retail service and the gateway provisioner

    A shallow embedding of [app/main.py] (the Flask demo service) and of the two
    functions of [agentcore-integration/deploy_retail_gateway_boto3.py] that the
    specification makes statements about ([wait_for_gateway_ready] and
    [get_or_create_service_role]), followed by the properties of the
    specification stated and proved over these definitions.

    Python objects coming from a JSON body are modelled by the inductive type
    [value]; Python's arbitrary-precision [int] is [Z], Python's [float] is the
    IEEE-754 binary64 type of the kernel.  A raised exception is the [Raise]
    branch of [result]. *)

From Stdlib Require Import ZArith QArith List String Ascii Bool Lia Lqa Floats.
Import ListNotations.

Set Warnings "-inexact-float,-register-all".

(** ** Python values, exceptions and the operators used by the service *)

Module Py.

Local Open Scope string_scope.
Local Open Scope Z_scope.

(** The exceptions that the modelled code can meet.  [HTTPException] is what
    [request.get_json()] raises on a body it refuses (400, 415); [ClientError]
    is botocore's, told apart by its error code; [OtherError] is any other
    subclass of [Exception]. *)
Inductive exn : Type :=
| TypeError
| AttributeError
| OverflowError
| ZeroDivisionError
| HTTPException (code : Z)
| ClientError (code : string)
| OtherError (message : string).

Inductive result (A : Type) : Type :=
| Ok (a : A)
| Raise (e : exn).
Arguments Ok {A} a.
Arguments Raise {A} e.

Definition bind {A B : Type} (m : result A) (k : A -> result B) : result B :=
  match m with
  | Ok a => k a
  | Raise e => Raise e
  end.

Declare Scope py_scope.
Delimit Scope py_scope with py.
Notation "x <- m ;; k" := (bind m (fun x => k))
  (at level 61, m at next level, right associativity) : py_scope.
Local Open Scope py_scope.

(** What [json.loads] produces: [None], [bool], [int], [float], [str], [list]
    and [dict] with string keys.  A dict keeps its items in insertion order; a
    parsed object has no repeated key, and [dict_get] returns the first item
    with the key. *)
Inductive value : Type :=
| VNone
| VBool (b : bool)
| VInt (z : Z)
| VFloat (f : float)
| VStr (s : string)
| VList (l : list value)
| VDict (kvs : list (string * value)).

Fixpoint dict_get (kvs : list (string * value)) (k : string) : option value :=
  match kvs with
  | [] => None
  | (k', v) :: rest => if String.eqb k' k then Some v else dict_get rest k
  end.

(** [d.get(k, default)]: only a dict has the method. *)
Definition py_get (d : value) (k : string) (default : value) : result value :=
  match d with
  | VDict kvs =>
      match dict_get kvs k with
      | Some v => Ok v
      | None => Ok default
      end
  | _ => Raise AttributeError
  end.

Fixpoint chars (s : string) : list value :=
  match s with
  | EmptyString => []
  | String c rest => VStr (String c EmptyString) :: chars rest
  end.

(** [iter(v)] run to the end: a list yields its elements, a dict its keys, a
    string its characters; the other JSON values are not iterable. *)
Definition py_iter (v : value) : result (list value) :=
  match v with
  | VList l => Ok l
  | VDict kvs => Ok (map (fun kv => VStr (fst kv)) kvs)
  | VStr s => Ok (chars s)
  | _ => Raise TypeError
  end.

(** *** Numbers *)

(** The numeric tower restricted to what JSON gives: [bool] is a subtype of
    [int] ([True] is 1), [int] is unbounded, [float] is binary64. *)
Inductive number : Type :=
| NInt (z : Z)
| NFloat (f : float).

Definition as_number (v : value) : option number :=
  match v with
  | VBool b => Some (NInt (if b then 1 else 0))
  | VInt z => Some (NInt z)
  | VFloat f => Some (NFloat f)
  | _ => None
  end.

(** [float(z)]: the nearest binary64 (ties to even), [OverflowError] when the
    integer is beyond the largest finite float. *)
Definition float_of_int (z : Z) : result float :=
  let f := SF2Prim (binary_normalize prec emax z 0 false) in
  if is_infinity f then Raise OverflowError else Ok f.

Definition to_float (n : number) : result float :=
  match n with
  | NInt z => float_of_int z
  | NFloat f => Ok f
  end.

Definition repeat_string (s : string) (n : Z) : string :=
  String.concat "" (repeat s (Z.to_nat n)).

Definition repeat_list (l : list value) (n : Z) : list value :=
  List.concat (repeat l (Z.to_nat n)).

(** Sequence repetition [seq * n]; a count below 1 gives the empty sequence.
    (The interpreter's memory limit on the length of the result is not
    modelled.) *)
Definition seq_repeat (v : value) (n : Z) : result value :=
  match v with
  | VStr s => Ok (VStr (repeat_string s n))
  | VList l => Ok (VList (repeat_list l n))
  | _ => Raise TypeError
  end.

(** [a * b] *)
Definition py_mul (a b : value) : result value :=
  match as_number a, as_number b with
  | Some (NInt x), Some (NInt y) => Ok (VInt (x * y))
  | Some x, Some y =>
      fx <- to_float x ;; fy <- to_float y ;; Ok (VFloat (fx * fy)%float)
  | Some (NInt n), None => seq_repeat b n
  | None, Some (NInt n) => seq_repeat a n
  | _, _ => Raise TypeError
  end.

(** [a + b] *)
Definition py_add (a b : value) : result value :=
  match as_number a, as_number b with
  | Some (NInt x), Some (NInt y) => Ok (VInt (x + y))
  | Some x, Some y =>
      fx <- to_float x ;; fy <- to_float y ;; Ok (VFloat (fx + fy)%float)
  | _, _ =>
      match a, b with
      | VStr s, VStr t => Ok (VStr (s ++ t)%string)
      | VList l, VList m => Ok (VList (l ++ m)%list)
      | _, _ => Raise TypeError
      end
  end.

Definition is_zero_number (n : number) : bool :=
  match n with
  | NInt z => z =? 0
  | NFloat f => PrimFloat.is_zero f
  end.

(** [a / b] on two ints: the quotient correctly rounded to binary64.  The
    scaled quotient carries at least 64 significant bits and a sticky bit. *)
Definition int_truediv (a b : Z) : result float :=
  if a =? 0 then Ok (if b <? 0 then neg_zero else zero)
  else
    let k := Z.max 0 (Z.log2 (Z.abs b) - Z.log2 (Z.abs a) + 64) in
    let n := Z.abs a * 2 ^ k in
    let q := n / Z.abs b in
    let sticky := if n mod Z.abs b =? 0 then 0 else 1 in
    let m := 2 * q + sticky in
    let sm := if Z.sgn a * Z.sgn b <? 0 then - m else m in
    let f := SF2Prim (binary_normalize prec emax sm (- k - 1) false) in
    if is_infinity f then Raise OverflowError else Ok f.

(** [a / b] (true division) *)
Definition py_truediv (a b : value) : result value :=
  match as_number a, as_number b with
  | Some x, Some y =>
      if is_zero_number y then Raise ZeroDivisionError
      else
        match x, y with
        | NInt p, NInt q => f <- int_truediv p q ;; Ok (VFloat f)
        | _, _ =>
            fx <- to_float x ;; fy <- to_float y ;; Ok (VFloat (fx / fy)%float)
        end
  | _, _ => Raise TypeError
  end.

(** [sum(f(x) for x in l)]: the accumulator starts at the int 0; each element
    is produced by the generator and then added, so the first exception of
    either kind is the one raised.  (From CPython 3.12 a run of floats is added
    with compensation, which can change the last bit of the result; the
    left-to-right sum is what the language reference describes.) *)
Fixpoint sum_from {A : Type} (f : A -> result value) (l : list A) (acc : value)
  : result value :=
  match l with
  | [] => Ok acc
  | x :: rest => v <- f x ;; acc' <- py_add acc v ;; sum_from f rest acc'
  end.

Definition py_sum {A : Type} (f : A -> result value) (l : list A) : result value :=
  sum_from f l (VInt 0).



(** [s[:n]] on a string *)
Definition prefix (n : nat) (s : string) : string := substring 0 n s.

End Py.

(** ** The demo service: [app/main.py] *)

Module App.

Import Py.
Local Open Scope string_scope.
Local Open Scope Z_scope.
Local Open Scope py_scope.

(** The four collections hold dicts with a fixed set of keys; each kind is a
    record, and [order_json] and its siblings give the dict back. *)
Record order : Type := {
  o_id : string;
  o_customer_id : value;
  o_items : value;
  o_total : value;
  o_status : string;
  o_created_at : string
}.

Record product : Type := {
  p_id : string;
  p_name : string;
  p_price : value;
  p_category : string;
  p_stock : Z
}.

Record customer : Type := {
  c_id : string;
  c_name : string;
  c_email : string;
  c_phone : string
}.

Record purchase : Type := {
  u_id : string;
  u_order_id : value;
  u_payment_method : value;
  u_payment_status : string;
  u_amount : value;
  u_transaction_id : string;
  u_processed_at : string
}.

Definition order_json (o : order) : value :=
  VDict [("id", VStr (o_id o)); ("customer_id", o_customer_id o);
         ("items", o_items o); ("total", o_total o);
         ("status", VStr (o_status o)); ("created_at", VStr (o_created_at o))].

Definition product_json (p : product) : value :=
  VDict [("id", VStr (p_id p)); ("name", VStr (p_name p)); ("price", p_price p);
         ("category", VStr (p_category p)); ("stock", VInt (p_stock p))].

Definition customer_json (c : customer) : value :=
  VDict [("id", VStr (c_id c)); ("name", VStr (c_name c));
         ("email", VStr (c_email c)); ("phone", VStr (c_phone c))].

Definition purchase_json (u : purchase) : value :=
  VDict [("id", VStr (u_id u)); ("order_id", u_order_id u);
         ("payment_method", u_payment_method u);
         ("payment_status", VStr (u_payment_status u));
         ("amount", u_amount u);
         ("transaction_id", VStr (u_transaction_id u));
         ("processed_at", VStr (u_processed_at u))].

(** The module-level lists, the whole state of the process. *)
Record store : Type := {
  orders : list order;
  products : list product;
  customers : list customer;
  purchases : list purchase
}.

Definition item (product_id name : string) (quantity : Z) (price : float) : value :=
  VDict [("product_id", VStr product_id); ("name", VStr name);
         ("quantity", VInt quantity); ("price", VFloat price)].

(** The sample data the module starts with. *)
Definition sample : store := {|
  orders :=
    [ {| o_id := "ord_001"; o_customer_id := VStr "cust_001";
         o_items := VList [item "prod_001" "Laptop" 1 999.99;
                           item "prod_002" "Mouse" 2 29.99];
         o_total := VFloat 1059.97; o_status := "completed";
         o_created_at := "2024-01-15T10:30:00Z" |};
      {| o_id := "ord_002"; o_customer_id := VStr "cust_002";
         o_items := VList [item "prod_003" "Keyboard" 1 79.99];
         o_total := VFloat 79.99; o_status := "pending";
         o_created_at := "2024-01-16T14:20:00Z" |} ];
  products :=
    [ {| p_id := "prod_001"; p_name := "Laptop"; p_price := VFloat 999.99;
         p_category := "Electronics"; p_stock := 50 |};
      {| p_id := "prod_002"; p_name := "Mouse"; p_price := VFloat 29.99;
         p_category := "Electronics"; p_stock := 100 |};
      {| p_id := "prod_003"; p_name := "Keyboard"; p_price := VFloat 79.99;
         p_category := "Electronics"; p_stock := 75 |};
      {| p_id := "prod_004"; p_name := "Monitor"; p_price := VFloat 299.99;
         p_category := "Electronics"; p_stock := 30 |} ];
  customers :=
    [ {| c_id := "cust_001"; c_name := "John Doe"; c_email := "john@example.com";
         c_phone := "+1-555-0123" |};
      {| c_id := "cust_002"; c_name := "Jane Smith"; c_email := "jane@example.com";
         c_phone := "+1-555-0124" |} ];
  purchases :=
    [ {| u_id := "pur_001"; u_order_id := VStr "ord_001";
         u_payment_method := VStr "credit_card"; u_payment_status := "completed";
         u_amount := VFloat 1059.97; u_transaction_id := "txn_abc123";
         u_processed_at := "2024-01-15T10:35:00Z" |} ]
|}.

(** What a handler takes from outside the process while it runs: the strings
    of its successive [uuid.uuid4()] calls and of [datetime.utcnow().isoformat()]. *)
Record env : Type := {
  uuid4 : nat -> string;
  utcnow : string
}.

(** The part of Flask's [request] that the module reads: the headers, and what
    [request.get_json()] gives (the parsed body, or the exception it raises). *)
Record request : Type := {
  headers : list (string * string);
  get_json : result value
}.

Record response : Type := {
  status : Z;
  body : value
}.

(** [jsonify(v)] and [jsonify(v), code] *)
Definition jsonify (v : value) : response := {| status := 200; body := v |}.
Definition with_status (r : response) (code : Z) : response :=
  {| status := code; body := body r |}.

(** A view function: it returns a response or raises, and leaves a store. *)
Definition view : Type := env -> request -> store -> result response * store.

Definition lower_ascii (c : ascii) : ascii :=
  let n := nat_of_ascii c in
  if (andb (Nat.leb 65 n) (Nat.leb n 90)) then ascii_of_nat (n + 32) else c.

Fixpoint lower (s : string) : string :=
  match s with
  | EmptyString => EmptyString
  | String c rest => String (lower_ascii c) (lower rest)
  end.

(** [request.headers.get(name)]: header names compare without case. *)
Fixpoint headers_get (h : list (string * string)) (name : string) : option string :=
  match h with
  | [] => None
  | (k, v) :: rest =>
      if String.eqb (lower k) (lower name) then Some v else headers_get rest name
  end.

(** [x or y] on two optional strings: [x] when it is a non-empty string *)
Definition py_or (x y : option string) : option string :=
  match x with
  | Some (String _ _) => x
  | _ => y
  end.

(** The decorator: it reads the two headers, writes one line to the log and
    calls the view.  The log line is returned beside the view's result. *)
Definition validate_api_key (f : view)
  : env -> request -> store -> result response * store * list string :=
  fun e r s =>
    let api_key := py_or (headers_get (headers r) "X-API-Key")
                         (headers_get (headers r) "X-Dummy-Auth") in
    let line :=
      match api_key with
      | Some (String c k) =>
          "Request with API key: " ++ prefix 10 (String c k) ++ "..."
      | _ => "Request without API key (public access)"
      end in
    (f e r s, [line]).

Definition health_check : view := fun e r s =>
  (Ok (jsonify (VDict [("status", VStr "healthy"); ("timestamp", VStr (utcnow e))])), s).

Definition get_orders : view := fun e r s =>
  (Ok (jsonify (VDict [("orders", VList (map order_json (orders s)));
                       ("count", VInt (Z.of_nat (List.length (orders s))))])), s).

(** [next((o for o in orders if o["id"] == order_id), None)] is [find]; a
    record of the collection is a non-empty dict, so [if order:] holds exactly
    when one was found. *)
Definition get_order (order_id : string) : view := fun e r s =>
  match find (fun o => String.eqb (o_id o) order_id) (orders s) with
  | Some o => (Ok (jsonify (order_json o)), s)
  | None =>
      (Ok (with_status (jsonify (VDict [("error", VStr "Order not found")])) 404), s)
  end.

(** One term of the generator in [create_order] *)
Definition line_total (item : value) : result value :=
  price <- py_get item "price" (VInt 0) ;;
  quantity <- py_get item "quantity" (VInt 1) ;;
  py_mul price quantity.

Definition new_order (e : env) (r : request) : result order :=
  data <- get_json r ;;
  customer_id <- py_get data "customer_id" VNone ;;
  items <- py_get data "items" (VList []) ;;
  items' <- py_get data "items" (VList []) ;;
  l <- py_iter items' ;;
  total <- py_sum line_total l ;;
  Ok {| o_id := "ord_" ++ prefix 8 (uuid4 e 0);
        o_customer_id := customer_id;
        o_items := items;
        o_total := total;
        o_status := "pending";
        o_created_at := utcnow e ++ "Z" |}.

Definition create_order : view := fun e r s =>
  match new_order e r with
  | Ok o =>
      (Ok (with_status (jsonify (order_json o)) 201),
       {| orders := orders s ++ [o]; products := products s;
          customers := customers s; purchases := purchases s |})
  | Raise x => (Raise x, s)
  end.

Definition new_purchase (e : env) (r : request) : result purchase :=
  data <- get_json r ;;
  order_id <- py_get data "order_id" VNone ;;
  payment_method <- py_get data "payment_method" (VStr "credit_card") ;;
  amount <- py_get data "amount" VNone ;;
  Ok {| u_id := "pur_" ++ prefix 8 (uuid4 e 0);
        u_order_id := order_id;
        u_payment_method := payment_method;
        u_payment_status := "completed";
        u_amount := amount;
        u_transaction_id := "txn_" ++ prefix 8 (uuid4 e 1);
        u_processed_at := utcnow e ++ "Z" |}.

Definition create_purchase : view := fun e r s =>
  match new_purchase e r with
  | Ok u =>
      (Ok (with_status (jsonify (purchase_json u)) 201),
       {| orders := orders s; products := products s;
          customers := customers s; purchases := purchases s ++ [u] |})
  | Raise x => (Raise x, s)
  end.

Definition get_purchases : view := fun e r s =>
  (Ok (jsonify (VDict [("purchases", VList (map purchase_json (purchases s)));
                       ("count", VInt (Z.of_nat (List.length (purchases s))))])), s).

Definition get_products : view := fun e r s =>
  (Ok (jsonify (VDict [("products", VList (map product_json (products s)));
                       ("count", VInt (Z.of_nat (List.length (products s))))])), s).

Definition get_product (product_id : string) : view := fun e r s =>
  match find (fun p => String.eqb (p_id p) product_id) (products s) with
  | Some p => (Ok (jsonify (product_json p)), s)
  | None =>
      (Ok (with_status (jsonify (VDict [("error", VStr "Product not found")])) 404), s)
  end.

Definition get_customers : view := fun e r s =>
  (Ok (jsonify (VDict [("customers", VList (map customer_json (customers s)));
                       ("count", VInt (Z.of_nat (List.length (customers s))))])), s).

Definition get_customer (customer_id : string) : view := fun e r s =>
  match find (fun c => String.eqb (c_id c) customer_id) (customers s) with
  | Some c => (Ok (jsonify (customer_json c)), s)
  | None =>
      (Ok (with_status (jsonify (VDict [("error", VStr "Customer not found")])) 404), s)
  end.

Definition get_inventory : view := fun e r s =>
  let inventory :=
    map (fun p => VDict [("product_id", VStr (p_id p)); ("name", VStr (p_name p));
                         ("stock", VInt (p_stock p))]) (products s) in
  (Ok (jsonify (VDict [("inventory", VList inventory);
                       ("total_products", VInt (Z.of_nat (List.length inventory)))])), s).

Definition is_completed (o : order) : bool := String.eqb (o_status o) "completed".

Definition sales_analytics (s : store) : result response :=
  total_sales <- py_sum (fun o => Ok (o_total o)) (filter is_completed (orders s)) ;;
  let completed_orders := Z.of_nat (List.length (filter is_completed (orders s))) in
  average <- (if 0 <? completed_orders
              then py_truediv total_sales (VInt completed_orders)
              else Ok (VInt 0)) ;;
  Ok (jsonify (VDict [("total_sales", total_sales);
                      ("completed_orders", VInt completed_orders);
                      ("average_order_value", average)])).

Definition get_sales_analytics : view := fun e r s => (sales_analytics s, s).

(** The routes of the module, each with the arguments taken from its path. *)
Inductive route : Type :=
| GET_health
| GET_orders
| GET_order (order_id : string)
| POST_order
| POST_purchase
| GET_purchases
| GET_products
| GET_product (product_id : string)
| GET_customers
| GET_customer (customer_id : string)
| GET_inventory
| GET_analytics_sales.

Definition view_of (rt : route) : view :=
  match rt with
  | GET_health => health_check
  | GET_orders => get_orders
  | GET_order i => get_order i
  | POST_order => create_order
  | POST_purchase => create_purchase
  | GET_purchases => get_purchases
  | GET_products => get_products
  | GET_product i => get_product i
  | GET_customers => get_customers
  | GET_customer i => get_customer i
  | GET_inventory => get_inventory
  | GET_analytics_sales => get_sales_analytics
  end.

(** Every route is registered with the decorated view. *)
Definition app (rt : route) (e : env) (r : request) (s : store)
  : result response * store * list string :=
  validate_api_key (view_of rt) e r s.

Definition reply (rt : route) (e : env) (r : request) (s : store) : result response :=
  fst (fst (app rt e r s)).

Definition after (rt : route) (e : env) (r : request) (s : store) : store :=
  snd (fst (app rt e r s)).

(** The store after a sequence of requests, served one after the other. *)
Fixpoint serve (reqs : list (route * env * request)) (s : store) : store :=
  match reqs with
  | [] => s
  | (rt, e, r) :: rest => serve rest (after rt e r s)
  end.

End App.

(** ** The provisioner: [agentcore-integration/deploy_retail_gateway_boto3.py] *)

Module Deploy.

Import Py.
Local Open Scope string_scope.
Local Open Scope Q_scope.

(** *** [wait_for_gateway_ready] *)

(** The control plane and the clock as the polling loop meets them.  The
    [i]-th call of [get_gateway] (counted from 0) either gives the value of
    [response['status']] or raises, and takes [latency i] seconds; the [j]-th
    [time.sleep(d)] takes [d + oversleep j] seconds.  Seconds are exact
    rationals. *)
Record plane : Type := {
  get_gateway : string -> nat -> result string;
  latency : nat -> Q;
  oversleep : nat -> Q
}.

(** The running state: what [time.time()] returns, how many [get_gateway]
    calls were made, and the durations asked of [time.sleep], latest first. *)
Record world : Type := {
  clock : Q;
  polls : nat;
  slept : list Q
}.

Definition sleep (P : plane) (d : Q) (w : world) : world :=
  {| clock := clock w + (d + oversleep P (List.length (slept w)));
     polls := polls w;
     slept := d :: slept w |}.

Definition call_get_gateway (P : plane) (gateway_id : string) (w : world)
  : result string * world :=
  (get_gateway P gateway_id (polls w),
   {| clock := clock w + latency P (polls w);
      polls := S (polls w);
      slept := slept w |}).

Definition Qltb (x y : Q) : bool := negb (Qle_bool y x).

(** The [while] loop.  [fuel] bounds the number of tests of the loop
    condition; [None] means the bound was reached before the loop ended.  The
    lines printed on the way are left out. *)
Fixpoint wait_loop (fuel : nat) (P : plane) (gateway_id : string)
    (start_time max_wait_time : Q) (w : world) : option (bool * world) :=
  match fuel with
  | O => None
  | S fuel' =>
      if Qltb (clock w - start_time) max_wait_time then
        let (response, w1) := call_get_gateway P gateway_id w in
        match response with
        | Ok status =>
            if String.eqb status "READY" then Some (true, w1)
            else if String.eqb status "FAILED" then Some (false, w1)
            else wait_loop fuel' P gateway_id start_time max_wait_time (sleep P 10 w1)
        | Raise _ =>
            wait_loop fuel' P gateway_id start_time max_wait_time (sleep P 10 w1)
        end
      else Some (false, w)
  end.

Definition wait_for_gateway_ready (fuel : nat) (P : plane) (gateway_id : string)
    (max_wait_time : Q) (w : world) : option (bool * world) :=
  wait_loop fuel P gateway_id (clock w) max_wait_time w.

(** The default of the parameter [max_wait_time] *)
Definition max_wait_time_default : Q := 300.

(** *** [get_or_create_service_role] *)

(** The calls the function makes on the IAM and STS clients, with the
    arguments it passes.  A policy document is kept as the dict handed to
    [json.dumps]. *)
Inductive call : Type :=
| GetRole (RoleName : string)
| CreateRole (RoleName : string) (AssumeRolePolicyDocument : value) (Description : string)
| CreatePolicy (PolicyName : string) (PolicyDocument : value) (Description : string)
| GetCallerIdentity
| AttachRolePolicy (RoleName PolicyArn : string).

(** What the two clients answer: the field the function reads from a
    response ([response['Role']['Arn']], [response['Policy']['Arn']],
    [response['Account']]), or the exception raised. *)
Record aws : Type := {
  get_role : string -> result string;
  create_role : string -> value -> string -> result string;
  create_policy : string -> value -> string -> result string;
  get_caller_identity : result string;
  attach_role_policy : string -> string -> result unit
}.

(** Computations that call the clients: the calls made so far are threaded
    through, an exception ends the computation unless a handler takes it. *)
Definition M (A : Type) : Type := list call -> result A * list call.

Definition ret {A : Type} (a : A) : M A := fun log => (Ok a, log).

Definition mbind {A B : Type} (m : M A) (k : A -> M B) : M B :=
  fun log =>
    match m log with
    | (Ok a, log') => k a log'
    | (Raise e, log') => (Raise e, log')
    end.

Definition invoke {A : Type} (c : call) (answer : result A) : M A :=
  fun log => (answer, log ++ [c])%list.

(** [try: m  except <class>: h], the class given by the test [handles] *)
Definition try_except {A : Type} (m : M A) (handles : exn -> bool) (h : M A) : M A :=
  fun log =>
    match m log with
    | (Ok a, log') => (Ok a, log')
    | (Raise e, log') => if handles e then h log' else (Raise e, log')
    end.

Declare Scope aws_scope.
Delimit Scope aws_scope with aws.
Notation "x <-- m ;; k" := (mbind m (fun x => k))
  (at level 61, m at next level, right associativity) : aws_scope.
Local Open Scope aws_scope.

Definition has_code (code : string) (e : exn) : bool :=
  match e with
  | ClientError c => String.eqb c code
  | _ => false
  end.

Definition NoSuchEntityException : exn -> bool := has_code "NoSuchEntity".
Definition EntityAlreadyExistsException : exn -> bool := has_code "EntityAlreadyExists".

Definition trust_policy : value :=
  VDict [("Version", VStr "2012-10-17");
         ("Statement",
          VList [VDict [("Effect", VStr "Allow");
                        ("Principal",
                         VDict [("Service", VStr "bedrock-agentcore.amazonaws.com")]);
                        ("Action", VStr "sts:AssumeRole")]])].

Definition policy_document : value :=
  VDict [("Version", VStr "2012-10-17");
         ("Statement",
          VList [VDict [("Effect", VStr "Allow");
                        ("Action",
                         VList [VStr "logs:CreateLogGroup";
                                VStr "logs:CreateLogStream";
                                VStr "logs:PutLogEvents"]);
                        ("Resource", VStr "arn:aws:logs:*:*:*")]])].

Definition role_name_of (unique_suffix : string) : string :=
  "AmazonBedrockAgentCoreGatewayServiceRole-" ++ unique_suffix.

Definition policy_name_of (unique_suffix : string) : string :=
  "AgentCoreGatewayPolicy-" ++ unique_suffix.

Definition get_or_create_service_role (unique_suffix : string) (A : aws) : M string :=
  let role_name := role_name_of unique_suffix in
  try_except
    (invoke (GetRole role_name) (get_role A role_name))
    NoSuchEntityException
    (let description := "Service role for AgentCore Gateway " ++ role_name in
     role_arn <-- invoke (CreateRole role_name trust_policy description)
                         (create_role A role_name trust_policy description) ;;
     let policy_name := policy_name_of unique_suffix in
     policy_arn <--
       try_except
         (invoke (CreatePolicy policy_name policy_document
                               "Basic policy for AgentCore Gateway")
                 (create_policy A policy_name policy_document
                                "Basic policy for AgentCore Gateway"))
         EntityAlreadyExistsException
         (account_id <-- invoke GetCallerIdentity (get_caller_identity A) ;;
          ret ("arn:aws:iam::" ++ account_id ++ ":policy/" ++ policy_name)) ;;
     _ <-- invoke (AttachRolePolicy role_name policy_arn)
                  (attach_role_policy A role_name policy_arn) ;;
     ret role_arn).

End Deploy.

(** ** Properties of the demo service *)

Section DemoService.

Import Py App.
Local Open Scope string_scope.
Local Open Scope Z_scope.
Local Open Scope py_scope.


(** A reply with status 200 and body [v] *)
Definition found (v : value) (x : result response) : Prop :=
  x = Ok {| status := 200; body := v |}.

(** Two requests that differ at most in their headers *)
Definition same_but_headers (r1 r2 : request) : Prop :=
  get_json r1 = get_json r2.




(** The reply is a 201 whose JSON body is [v]. *)
Definition created (v : value) (x : result response) : Prop :=
  x = Ok {| status := 201; body := v |}.

(** *** Lookups by id *)





(** *** What a request does to the store *)

Lemma reply_view (rt : route) (e : env) (r : request) (s : store) :
  reply rt e r s = fst (view_of rt e r s).
Proof. reflexivity. Qed.

Lemma after_view (rt : route) (e : env) (r : request) (s : store) :
  after rt e r s = snd (view_of rt e r s).
Proof. reflexivity. Qed.

Ltac split_view :=
  unfold get_order, get_product, get_customer, create_order, create_purchase;
  try match goal with
      | |- context [find ?f ?l] => destruct (find f l)
      | |- context [new_purchase ?e ?r] => destruct (new_purchase e r)
      | |- context [new_order ?e ?r] =>
          let N := fresh "N" in destruct (new_order e r) eqn:N
      end;
  simpl.

Ltac view_cases rt :=
  rewrite ?reply_view, ?after_view; destruct rt; simpl; split_view.

Lemma after_products (rt : route) (e : env) (r : request) (s : store) :
  products (after rt e r s) = products s.
Proof. view_cases rt; reflexivity. Qed.

Lemma serve_products (reqs : list (route * env * request)) (s : store) :
  products (serve reqs s) = products s.
Proof.
  revert s. induction reqs as [|[[rt e] r] reqs IH]; intros s; simpl.
  - reflexivity.
  - rewrite IH. apply after_products.
Qed.

(** C5: no request changes the products collection: every product record,
    its stock included, is the same after the request as before it, for one
    request and for any sequence of requests, and POST /purchase leaves every
    stock as it was. *)
Theorem products_never_mutated :
  (forall (rt : route) (e : env) (r : request) (s : store),
      products (after rt e r s) = products s) /\
  (forall (reqs : list (route * env * request)) (s : store),
      products (serve reqs s) = products s) /\
  (forall (e : env) (r : request) (s : store),
      map p_stock (products (after POST_purchase e r s)) = map p_stock (products s)).
Proof.
  split; [exact after_products|].
  split; [exact serve_products|].
  intros e r s. now rewrite after_products.
Qed.

(** Orders are only ever appended. *)
Lemma new_order_pending (e : env) (r : request) (o : order) :
  new_order e r = Ok o -> o_status o = "pending".
Proof.
  unfold new_order. intros H.
  repeat match type of H with
         | bind ?m _ = _ => destruct m; simpl in H; try discriminate H
         end.
  now inversion H.
Qed.

Lemma after_orders (rt : route) (e : env) (r : request) (s : store) :
  exists extra, orders (after rt e r s) = (orders s ++ extra)%list /\
                Forall (fun o => o_status o = "pending") extra.
Proof.
  view_cases rt;
    try (exists []; rewrite app_nil_r; split; [reflexivity|constructor]).
  match goal with N : new_order e r = Ok ?o |- _ =>
    exists [o]; split; [reflexivity|];
    constructor; [exact (new_order_pending e r o N)|constructor]
  end.
Qed.

Lemma serve_orders (reqs : list (route * env * request)) (s : store) :
  exists extra, orders (serve reqs s) = (orders s ++ extra)%list /\
                Forall (fun o => o_status o = "pending") extra.
Proof.
  revert s. induction reqs as [|[[rt e] r] reqs IH]; intros s; simpl.
  - exists []. rewrite app_nil_r. split; [reflexivity|constructor].
  - destruct (IH (after rt e r s)) as [x2 [E2 F2]].
    destruct (after_orders rt e r s) as [x1 [E1 F1]].
    exists (x1 ++ x2)%list. split.
    + now rewrite E2, E1, app_assoc.
    + apply Forall_app. split; assumption.
Qed.

(** *** The decorator *)

Lemma view_ignores_headers (rt : route) (e : env) (r1 r2 : request) (s : store) :
  same_but_headers r1 r2 -> view_of rt e r1 s = view_of rt e r2 s.
Proof.
  unfold same_but_headers. intros H.
  destruct rt; try reflexivity; simpl.
  - unfold create_order, new_order. now rewrite H.
  - unfold create_purchase, new_purchase. now rewrite H.
Qed.

(** C8: the decorated view returns what the view returns, whatever the
    headers are, and on every route two requests that differ only in their
    headers (X-API-Key and X-Dummy-Auth among them) get the same reply and
    leave the same store: no request is rejected for its headers. *)
Theorem validate_api_key_never_rejects :
  (forall (f : view) (e : env) (r : request) (s : store),
      fst (validate_api_key f e r s) = f e r s) /\
  (forall (rt : route) (e : env) (h1 h2 : list (string * string))
          (j : result value) (s : store),
      reply rt e {| headers := h1; get_json := j |} s =
      reply rt e {| headers := h2; get_json := j |} s /\
      after rt e {| headers := h1; get_json := j |} s =
      after rt e {| headers := h2; get_json := j |} s).
Proof.
  split.
  - reflexivity.
  - intros rt e h1 h2 j s. rewrite !reply_view, !after_view.
    now rewrite (view_ignores_headers rt e {| headers := h1; get_json := j |}
                   {| headers := h2; get_json := j |} s).
Qed.

(** *** POST /purchase *)

Lemma new_purchase_dict (e : env) (r : request) (kvs : list (string * value)) :
  get_json r = Ok (VDict kvs) ->
  new_purchase e r =
    Ok {| u_id := "pur_" ++ prefix 8 (uuid4 e 0);
          u_order_id := match dict_get kvs "order_id" with Some v => v | None => VNone end;
          u_payment_method :=
            match dict_get kvs "payment_method" with
            | Some v => v
            | None => VStr "credit_card"
            end;
          u_payment_status := "completed";
          u_amount := match dict_get kvs "amount" with Some v => v | None => VNone end;
          u_transaction_id := "txn_" ++ prefix 8 (uuid4 e 1);
          u_processed_at := utcnow e ++ "Z" |}.
Proof.
  intros H. unfold new_purchase. rewrite H. simpl.
  destruct (dict_get kvs "order_id"), (dict_get kvs "payment_method"),
    (dict_get kvs "amount"); reflexivity.
Qed.

Lemma new_purchase_completed (e : env) (r : request) (u : purchase) :
  new_purchase e r = Ok u -> u_payment_status u = "completed".
Proof.
  unfold new_purchase. intros H.
  repeat match type of H with
         | bind ?m _ = _ => destruct m; simpl in H; try discriminate H
         end.
  now inversion H.
Qed.

(** C7: a POST /purchase whose JSON object has no "payment_method" creates a
    purchase with payment_method "credit_card"; and whatever the body is, a
    POST /purchase either raises and leaves the store as it was, or answers 201
    and appends one purchase whose payment_status is "completed". *)
Theorem purchase_defaults :
  (forall (e : env) (r : request) (s : store) (kvs : list (string * value)),
      get_json r = Ok (VDict kvs) ->
      dict_get kvs "payment_method" = None ->
      exists u,
        created (purchase_json u) (reply POST_purchase e r s) /\
        purchases (after POST_purchase e r s) = (purchases s ++ [u])%list /\
        u_payment_method u = VStr "credit_card" /\
        u_payment_status u = "completed" /\
        u_amount u = match dict_get kvs "amount" with Some v => v | None => VNone end) /\
  (forall (e : env) (r : request) (s : store),
      (exists x, reply POST_purchase e r s = Raise x /\ after POST_purchase e r s = s) \/
      (exists u,
          created (purchase_json u) (reply POST_purchase e r s) /\
          purchases (after POST_purchase e r s) = (purchases s ++ [u])%list /\
          u_payment_status u = "completed")).
Proof.
  split.
  - intros e r s kvs Hj Hp.
    pose proof (new_purchase_dict e r kvs Hj) as N. rewrite Hp in N.
    rewrite reply_view, after_view. simpl. unfold create_purchase. rewrite N.
    eexists. repeat split.
  - intros e r s. rewrite reply_view, after_view. simpl. unfold create_purchase.
    destruct (new_purchase e r) as [u|x] eqn:N.
    + right. exists u. repeat split. exact (new_purchase_completed e r u N).
    + left. exists x. split; reflexivity.
Qed.

(** A GET request: no headers of interest, and no JSON body to read *)
Definition bare_get : request :=
  {| headers := [("Accept", "application/json")];
     get_json := Raise (HTTPException 415) |}.

(** The request of the specification's example: amount 50, no payment_method *)
Definition purchase_of_50 : request :=
  {| headers := []; get_json := Ok (VDict [("order_id", VStr "ord_002"); ("amount", VInt 50)]) |}.

Definition some_env : env :=
  {| uuid4 := fun n => match n with
                       | O => "3f2b8c1e-7a54-4d0b-9b1c-0e6f5a4d3c2b"
                       | _ => "a91d04e7-52c3-4f6e-8d2a-6b7c8d9e0f1a"
                       end;
     utcnow := "2024-02-01T09:00:00.000000" |}.

Lemma purchase_defaults_witness :
  exists u,
    created (purchase_json u) (reply POST_purchase some_env purchase_of_50 sample) /\
    purchases (after POST_purchase some_env purchase_of_50 sample) =
      (purchases sample ++ [u])%list /\
    u_payment_method u = VStr "credit_card" /\
    u_payment_status u = "completed" /\
    u_amount u = VInt 50.
Proof.
  exact (proj1 purchase_defaults some_env purchase_of_50 sample
           [("order_id", VStr "ord_002"); ("amount", VInt 50)] eq_refl eq_refl).
Defined.

(** *** POST /order *)

Lemma new_order_dict (e : env) (r : request) (kvs : list (string * value)) :
  get_json r = Ok (VDict kvs) ->
  new_order e r =
    (let items := match dict_get kvs "items" with Some v => v | None => VList [] end in
     l <- py_iter items ;;
     total <- py_sum line_total l ;;
     Ok {| o_id := "ord_" ++ prefix 8 (uuid4 e 0);
           o_customer_id :=
             match dict_get kvs "customer_id" with Some v => v | None => VNone end;
           o_items := items;
           o_total := total;
           o_status := "pending";
           o_created_at := utcnow e ++ "Z" |}).
Proof.
  intros H. unfold new_order. rewrite H. simpl.
  destruct (dict_get kvs "customer_id"), (dict_get kvs "items"); reflexivity.
Qed.

(** What [new_order] computes when it returns *)
Lemma new_order_total (e : env) (r : request) (o : order) :
  new_order e r = Ok o ->
  exists data l,
    get_json r = Ok data /\
    py_get data "items" (VList []) = Ok (o_items o) /\
    py_iter (o_items o) = Ok l /\
    py_sum line_total l = Ok (o_total o).
Proof.
  unfold new_order. intros H.
  destruct (get_json r) as [data|]; cbn [bind] in H; [|discriminate].
  destruct (py_get data "customer_id" VNone); cbn [bind] in H; [|discriminate].
  destruct (py_get data "items" (VList [])) as [items|] eqn:G;
    cbn [bind] in H; [|discriminate].
  destruct (py_iter items) as [l|] eqn:I; cbn [bind] in H; [|discriminate].
  destruct (py_sum line_total l) as [t|] eqn:T; cbn [bind] in H; [|discriminate].
  inversion H; subst; cbn [o_items o_total].
  exists data, l. repeat split; assumption || reflexivity.
Qed.





(** The request of the specification's example *)
Definition order_10_by_2 : request :=
  {| headers := [("X-API-Key", "demo-key")];
     get_json :=
       Ok (VDict [("customer_id", VStr "cust_001");
                  ("items", VList [VDict [("price", VInt 10); ("quantity", VInt 2)]])]) |}.


(** *** GET /analytics/sales *)

(** The body of the analytics reply *)
Definition analytics_body (total_sales : value) (completed_orders : Z)
    (average : value) : value :=
  VDict [("total_sales", total_sales);
         ("completed_orders", VInt completed_orders);
         ("average_order_value", average)].

Definition completed (s : store) : list order := filter is_completed (orders s).








Lemma completed_after_pending (l extra : list order) :
  Forall (fun o => o_status o = "pending") extra ->
  filter is_completed (l ++ extra) = filter is_completed l.
Proof.
  intros F. rewrite filter_app.
  replace (filter is_completed extra) with (@nil order); [apply app_nil_r|].
  induction F as [|o extra Ho _ IH]; simpl; [reflexivity|].
  unfold is_completed at 1. rewrite Ho. simpl. exact IH.
Qed.

Lemma reply_analytics (e : env) (r : request) (s : store) :
  reply GET_analytics_sales e r s =
    (total_sales <- py_sum (fun o => Ok (o_total o)) (completed s) ;;
     average <- (if 0 <? Z.of_nat (List.length (completed s))
                 then py_truediv total_sales (VInt (Z.of_nat (List.length (completed s))))
                 else Ok (VInt 0)) ;;
     Ok (jsonify (analytics_body total_sales (Z.of_nat (List.length (completed s)))
                                 average))).
Proof. reflexivity. Qed.




(** *** Defaults of the items of an order *)




(** A body without "items", and items without "price" or without "quantity" *)
Definition order_without_items : request :=
  {| headers := []; get_json := Ok (VDict [("customer_id", VStr "cust_002")]) |}.





End DemoService.

(** ** Properties of the provisioner *)

Section Provisioner.

Import Py Deploy.
Local Open Scope string_scope.
Local Open Scope Q_scope.

(** The clock never runs backwards: calls and sleeps take no negative time. *)
Definition monotone (P : plane) : Prop :=
  (forall i, 0 <= latency P i) /\ (forall j, 0 <= oversleep P j).

(** No call of [get_gateway] ever reports READY or FAILED (it may raise). *)
Definition never_settles (P : plane) (gateway_id : string) : Prop :=
  forall i status,
    get_gateway P gateway_id i = Ok status -> status <> "READY" /\ status <> "FAILED".

(** Every call of [get_gateway] raises. *)
Definition always_raises (P : plane) (gateway_id : string) : Prop :=
  forall i, exists x, get_gateway P gateway_id i = Raise x.

(** [k] more polls, each followed by a sleep of 10 seconds *)
Definition polled_and_slept (k : nat) (w w' : world) : Prop :=
  polls w' = (polls w + k)%nat /\ slept w' = (repeat 10 k ++ slept w)%list.

Lemma Qltb_true (x y : Q) : Qltb x y = true <-> x < y.
Proof.
  unfold Qltb. rewrite negb_true_iff. split.
  - intros H. apply Qnot_le_lt. intros L. apply Qle_bool_iff in L. congruence.
  - intros H. destruct (Qle_bool y x) eqn:E; [|reflexivity].
    apply Qle_bool_iff in E. exfalso. exact (Qlt_not_le _ _ H E).
Qed.

Lemma Qltb_false (x y : Q) : Qltb x y = false <-> y <= x.
Proof.
  unfold Qltb. rewrite negb_false_iff. apply Qle_bool_iff.
Qed.

Lemma Qnat_succ (n : nat) :
  inject_Z (Z.of_nat (S n)) == inject_Z (Z.of_nat n) + 1.
Proof.
  rewrite Nat2Z.inj_succ. unfold Z.succ. rewrite inject_Z_plus. reflexivity.
Qed.

(** One turn of the loop that neither returns nor leaves: a poll that does
    not settle, then a sleep. *)
Lemma wait_loop_turn (fuel : nat) (P : plane) (gateway_id : string)
    (start max_wait : Q) (w : world) :
  clock w - start < max_wait ->
  (forall status, get_gateway P gateway_id (polls w) = Ok status ->
                  status <> "READY" /\ status <> "FAILED") ->
  wait_loop (S fuel) P gateway_id start max_wait w =
  wait_loop fuel P gateway_id start max_wait
            (sleep P 10 (snd (call_get_gateway P gateway_id w))).
Proof.
  intros G H. cbn [wait_loop].
  replace (Qltb (clock w - start) max_wait) with true
    by (symmetry; now apply Qltb_true).
  unfold call_get_gateway at 1. cbn [snd].
  destruct (get_gateway P gateway_id (polls w)) as [status|x]; [|reflexivity].
  destruct (H status eq_refl) as [R F].
  apply String.eqb_neq in R. apply String.eqb_neq in F. now rewrite R, F.
Qed.

(** The loop ends by its deadline when nothing settles: [n + 1] tests of the
    condition are enough when at most [10 * n] seconds of the budget are left. *)
Lemma wait_loop_times_out (n : nat) (P : plane) (gateway_id : string)
    (start max_wait : Q) (w : world) :
  monotone P ->
  never_settles P gateway_id ->
  max_wait - (clock w - start) <= 10 * inject_Z (Z.of_nat n) ->
  exists w' k,
    wait_loop (S n) P gateway_id start max_wait w = Some (false, w') /\
    max_wait <= clock w' - start /\
    polled_and_slept k w w'.
Proof.
  intros [ML MO] NS. revert w.
  induction n as [|n IH]; intros w B.
  - change (inject_Z (Z.of_nat 0)) with 0 in B.
    exists w, O. split; [|split].
    + cbn [wait_loop].
      replace (Qltb (clock w - start) max_wait) with false; [reflexivity|].
      symmetry. apply Qltb_false. lra.
    + lra.
    + split; [now rewrite Nat.add_0_r|reflexivity].
  - destruct (Qlt_le_dec (clock w - start) max_wait) as [G|G].
    + rewrite (wait_loop_turn (S n) P gateway_id start max_wait w G)
        by (intros status; apply NS).
      set (w1 := sleep P 10 (snd (call_get_gateway P gateway_id w))).
      assert (C : clock w1 == clock w + latency P (polls w)
                              + (10 + oversleep P (List.length (slept w))))
        by reflexivity.
      destruct (IH w1) as [w' [k [E [D [K1 K2]]]]].
      { rewrite Qnat_succ in B. rewrite C.
        pose proof (ML (polls w)). pose proof (MO (List.length (slept w))). lra. }
      exists w', (S k). split; [exact E|]. split; [exact D|].
      split.
      * rewrite K1. simpl. lia.
      * rewrite K2. change (slept w1) with (10 :: slept w). cbn [repeat].
        rewrite (repeat_cons k 10). now rewrite <- app_assoc.
    + exists w, O. split; [|split].
      * cbn [wait_loop].
        replace (Qltb (clock w - start) max_wait) with false; [reflexivity|].
        symmetry. now apply Qltb_false.
      * exact G.
      * split; [now rewrite Nat.add_0_r|reflexivity].
Qed.

Lemma creating_does_not_settle (P : plane) (gateway_id : string) (i : nat) :
  get_gateway P gateway_id i = Ok "CREATING" ->
  forall status, get_gateway P gateway_id i = Ok status ->
                 status <> "READY" /\ status <> "FAILED".
Proof.
  intros H status H'. rewrite H in H'. inversion H'; subst.
  split; discriminate.
Qed.

Lemma budget_allows (n : nat) :
  (30 <= n)%nat -> max_wait_time_default <= 10 * inject_Z (Z.of_nat n).
Proof.
  intros H. unfold max_wait_time_default.
  assert (L : inject_Z 30 <= inject_Z (Z.of_nat n)) by (rewrite <- Zle_Qle; lia).
  change (inject_Z 30) with 30 in L. lra.
Qed.

(** C2: when the first three polls report CREATING, CREATING, READY and the
    third poll starts within the 300 seconds, the function returns True after
    exactly three polls and two sleeps of 10 seconds; when the first two polls
    report CREATING, FAILED it returns False after two polls and one sleep;
    and when no poll ever reports READY or FAILED it returns False, at least
    300 seconds after it started, every poll having been followed by a sleep
    of 10 seconds.  In each case the loop ends within the stated number of
    tests of its condition. *)
Theorem wait_for_gateway_ready_outcomes :
  (forall (P : plane) (gateway_id : string) (w : world) (n : nat),
      monotone P ->
      get_gateway P gateway_id (polls w) = Ok "CREATING" ->
      get_gateway P gateway_id (S (polls w)) = Ok "CREATING" ->
      get_gateway P gateway_id (S (S (polls w))) = Ok "READY" ->
      latency P (polls w) + (10 + oversleep P (List.length (slept w)))
        + latency P (S (polls w)) + (10 + oversleep P (S (List.length (slept w))))
        < max_wait_time_default ->
      exists w',
        wait_for_gateway_ready (3 + n) P gateway_id max_wait_time_default w
          = Some (true, w') /\
        polls w' = (polls w + 3)%nat /\
        slept w' = 10 :: 10 :: slept w) /\
  (forall (P : plane) (gateway_id : string) (w : world) (n : nat),
      get_gateway P gateway_id (polls w) = Ok "CREATING" ->
      get_gateway P gateway_id (S (polls w)) = Ok "FAILED" ->
      latency P (polls w) + (10 + oversleep P (List.length (slept w)))
        < max_wait_time_default ->
      exists w',
        wait_for_gateway_ready (2 + n) P gateway_id max_wait_time_default w
          = Some (false, w') /\
        polls w' = (polls w + 2)%nat /\
        slept w' = 10 :: slept w) /\
  (forall (P : plane) (gateway_id : string) (w : world) (n : nat),
      monotone P ->
      never_settles P gateway_id ->
      (30 <= n)%nat ->
      exists w' k,
        wait_for_gateway_ready (S n) P gateway_id max_wait_time_default w
          = Some (false, w') /\
        max_wait_time_default <= clock w' - clock w /\
        polled_and_slept k w w').
Proof.
  split; [|split].
  - intros P g w n [ML MO] H0 H1 H2 B.
    pose proof (ML (polls w)) as L0. pose proof (ML (S (polls w))) as L1.
    pose proof (MO (List.length (slept w))) as O0.
    pose proof (MO (S (List.length (slept w)))) as O1.
    unfold wait_for_gateway_ready, max_wait_time_default in *.
    change (3 + n)%nat with (S (S (S n))).
    rewrite wait_loop_turn;
      [|lra|exact (creating_does_not_settle P g _ H0)].
    set (w1 := sleep P 10 (snd (call_get_gateway P g w))).
    assert (C1 : clock w1 == clock w + latency P (polls w)
                             + (10 + oversleep P (List.length (slept w))))
      by reflexivity.
    rewrite wait_loop_turn;
      [|rewrite C1; lra|exact (creating_does_not_settle P g _ H1)].
    set (w2 := sleep P 10 (snd (call_get_gateway P g w1))).
    assert (C2 : clock w2 == clock w1 + latency P (S (polls w))
                             + (10 + oversleep P (S (List.length (slept w)))))
      by reflexivity.
    cbn [wait_loop].
    replace (Qltb (clock w2 - clock w) 300) with true
      by (symmetry; apply Qltb_true; rewrite C2, C1; lra).
    unfold call_get_gateway. change (polls w2) with (S (S (polls w))).
    rewrite H2. cbn [String.eqb Ascii.eqb Bool.eqb].
    eexists. split; [reflexivity|]. split; [simpl; lia|reflexivity].
  - intros P g w n H0 H1 B.
    unfold wait_for_gateway_ready, max_wait_time_default in *.
    change (2 + n)%nat with (S (S n)).
    rewrite wait_loop_turn;
      [|lra|exact (creating_does_not_settle P g _ H0)].
    set (w1 := sleep P 10 (snd (call_get_gateway P g w))).
    assert (C1 : clock w1 == clock w + latency P (polls w)
                             + (10 + oversleep P (List.length (slept w))))
      by reflexivity.
    cbn [wait_loop].
    replace (Qltb (clock w1 - clock w) 300) with true
      by (symmetry; apply Qltb_true; rewrite C1; lra).
    unfold call_get_gateway. change (polls w1) with (S (polls w)).
    rewrite H1. cbn [String.eqb Ascii.eqb Bool.eqb].
    eexists. split; [reflexivity|]. split; [simpl; lia|reflexivity].
  - intros P g w n M NS Hn.
    apply (wait_loop_times_out n P g (clock w) max_wait_time_default w M NS).
    pose proof (budget_allows n Hn). lra.
Qed.

(** C10: when every call of [get_gateway] raises, the function still returns,
    and returns False, at least 300 seconds after it started; each of the [k]
    failed calls was followed by a sleep of 10 seconds and a new test of the
    loop condition. *)
Theorem polling_survives_exceptions :
  forall (P : plane) (gateway_id : string) (w : world) (n : nat),
    monotone P ->
    always_raises P gateway_id ->
    (30 <= n)%nat ->
    exists w' k,
      wait_for_gateway_ready (S n) P gateway_id max_wait_time_default w
        = Some (false, w') /\
      max_wait_time_default <= clock w' - clock w /\
      polled_and_slept k w w'.
Proof.
  intros P g w n M AR Hn.
  apply (wait_loop_times_out n P g (clock w) max_wait_time_default w M).
  - intros i status H. destruct (AR i) as [x Hx]. congruence.
  - pose proof (budget_allows n Hn). lra.
Qed.

(** Control planes for the scenarios: half a second per call, sleeps that
    overshoot by a hundredth of a second. *)
Definition scripted (script : nat -> result string) : plane :=
  {| get_gateway := fun _ i => script i;
     latency := fun _ => 1 # 2;
     oversleep := fun _ => 1 # 100 |}.

Definition ready_at_third : plane :=
  scripted (fun i => match i with
                     | O | S O => Ok "CREATING"
                     | _ => Ok "READY"
                     end).

Definition failed_at_second : plane :=
  scripted (fun i => match i with
                     | O => Ok "CREATING"
                     | _ => Ok "FAILED"
                     end).

Definition always_creating : plane := scripted (fun _ => Ok "CREATING").

Definition unreachable : plane :=
  scripted (fun _ => Raise (OtherError "Could not connect to the endpoint URL")).

Definition at_start : world := {| clock := 1700000000; polls := 0; slept := [] |}.

Lemma scripted_monotone (script : nat -> result string) : monotone (scripted script).
Proof. split; intros; discriminate. Defined.

Lemma wait_for_gateway_ready_outcomes_witness :
  (exists w',
      wait_for_gateway_ready 3 ready_at_third "gw-demo" max_wait_time_default at_start
        = Some (true, w') /\
      polls w' = 3%nat /\ slept w' = [10; 10]) /\
  (exists w',
      wait_for_gateway_ready 2 failed_at_second "gw-demo" max_wait_time_default at_start
        = Some (false, w') /\
      polls w' = 2%nat /\ slept w' = [10]) /\
  (exists w' k,
      wait_for_gateway_ready 31 always_creating "gw-demo" max_wait_time_default at_start
        = Some (false, w') /\
      max_wait_time_default <= clock w' - clock at_start /\
      polled_and_slept k at_start w').
Proof.
  split; [|split].
  - refine (proj1 wait_for_gateway_ready_outcomes ready_at_third "gw-demo" at_start 0%nat
              (scripted_monotone _) eq_refl eq_refl eq_refl _).
    reflexivity.
  - refine (proj1 (proj2 wait_for_gateway_ready_outcomes) failed_at_second "gw-demo"
              at_start 0%nat eq_refl eq_refl _).
    reflexivity.
  - refine (proj2 (proj2 wait_for_gateway_ready_outcomes) always_creating "gw-demo"
              at_start 30%nat (scripted_monotone _) _ (le_n 30)).
    intros i status H. inversion H. split; discriminate.
Defined.

Lemma polling_survives_exceptions_witness :
  exists w' k,
    wait_for_gateway_ready 31 unreachable "gw-demo" max_wait_time_default at_start
      = Some (false, w') /\
    max_wait_time_default <= clock w' - clock at_start /\
    polled_and_slept k at_start w'.
Proof.
  refine (polling_survives_exceptions unreachable "gw-demo" at_start 30%nat
            (scripted_monotone _) _ (le_n 30)).
  intros i. eexists. reflexivity.
Defined.

(** *** The service role *)

(** The ARN rebuilt for a policy that exists already *)
Definition rebuilt_policy_arn (account_id unique_suffix : string) : string :=
  "arn:aws:iam::" ++ account_id ++ ":policy/" ++ policy_name_of unique_suffix.

Definition role_description (unique_suffix : string) : string :=
  "Service role for AgentCore Gateway " ++ role_name_of unique_suffix.

(** The calls of the path on which the role is created and the policy exists *)
Definition calls_when_policy_exists (account_id unique_suffix : string) : list call :=
  [GetRole (role_name_of unique_suffix);
   CreateRole (role_name_of unique_suffix) trust_policy (role_description unique_suffix);
   CreatePolicy (policy_name_of unique_suffix) policy_document
                "Basic policy for AgentCore Gateway";
   GetCallerIdentity;
   AttachRolePolicy (role_name_of unique_suffix)
                    (rebuilt_policy_arn account_id unique_suffix)].

(** C3, as the code has it: when the role does not exist, is created with
    ARN [role_arn], and [create_policy] raises EntityAlreadyExists, the policy
    ARN passed to [attach_role_policy] is
    arn:aws:iam::<account>:policy/AgentCoreGatewayPolicy-<unique_suffix>, built
    from the caller's account id, and the function returns [role_arn], the ARN
    of the created role (or raises what [attach_role_policy] raises). *)
Theorem existing_policy_arn_is_rebuilt :
  forall (unique_suffix : string) (A : aws) (role_arn account_id : string)
         (x y : exn) (log : list call),
    get_role A (role_name_of unique_suffix) = Raise x ->
    NoSuchEntityException x = true ->
    create_role A (role_name_of unique_suffix) trust_policy
                (role_description unique_suffix) = Ok role_arn ->
    create_policy A (policy_name_of unique_suffix) policy_document
                  "Basic policy for AgentCore Gateway" = Raise y ->
    EntityAlreadyExistsException y = true ->
    get_caller_identity A = Ok account_id ->
    get_or_create_service_role unique_suffix A log =
      (match attach_role_policy A (role_name_of unique_suffix)
                                (rebuilt_policy_arn account_id unique_suffix) with
       | Ok _ => Ok role_arn
       | Raise z => Raise z
       end,
       (log ++ calls_when_policy_exists account_id unique_suffix)%list).
Proof.
  intros sfx A role_arn account_id x y log G Gx R C Cy I.
  unfold get_or_create_service_role, try_except, mbind, invoke, ret.
  rewrite G, Gx.
  fold (role_description sfx). rewrite R, C, Cy, I.
  fold (rebuilt_policy_arn account_id sfx).
  unfold calls_when_policy_exists.
  rewrite <- !app_assoc. simpl.
  destruct (attach_role_policy A _ _); reflexivity.
Qed.

(** An account in which the policy exists already and the role does not *)
Definition policy_exists : aws :=
  {| get_role := fun _ => Raise (ClientError "NoSuchEntity");
     create_role := fun name _ _ => Ok ("arn:aws:iam::123456789012:role/" ++ name);
     create_policy := fun _ _ _ => Raise (ClientError "EntityAlreadyExists");
     get_caller_identity := Ok "123456789012";
     attach_role_policy := fun _ _ => Ok tt |}.

Lemma existing_policy_arn_is_rebuilt_witness :
  get_or_create_service_role "k3x9q2ab" policy_exists [] =
    (Ok "arn:aws:iam::123456789012:role/AmazonBedrockAgentCoreGatewayServiceRole-k3x9q2ab",
     calls_when_policy_exists "123456789012" "k3x9q2ab").
Proof.
  exact (existing_policy_arn_is_rebuilt "k3x9q2ab" policy_exists
           "arn:aws:iam::123456789012:role/AmazonBedrockAgentCoreGatewayServiceRole-k3x9q2ab"
           "123456789012" (ClientError "NoSuchEntity") (ClientError "EntityAlreadyExists")
           [] eq_refl eq_refl eq_refl eq_refl eq_refl eq_refl).
Defined.

(** C3, as the claim states it, fails: in that account [create_policy] raises
    EntityAlreadyExists and the function returns the ARN of the role, which is
    not the ARN rebuilt for the policy. *)
Lemma returned_arn_is_the_role_arn :
  create_policy policy_exists (policy_name_of "k3x9q2ab") policy_document
                "Basic policy for AgentCore Gateway"
    = Raise (ClientError "EntityAlreadyExists") /\
  fst (get_or_create_service_role "k3x9q2ab" policy_exists []) =
    Ok "arn:aws:iam::123456789012:role/AmazonBedrockAgentCoreGatewayServiceRole-k3x9q2ab" /\
  fst (get_or_create_service_role "k3x9q2ab" policy_exists []) <>
    Ok (rebuilt_policy_arn "123456789012" "k3x9q2ab") /\
  rebuilt_policy_arn "123456789012" "k3x9q2ab" =
    "arn:aws:iam::123456789012:policy/AgentCoreGatewayPolicy-k3x9q2ab".
Proof.
  repeat split. discriminate.
Qed.

End Provisioner.

(** ** More on the demo service *)

Section DemoServiceStore.

Import Py App.
Local Open Scope string_scope.
Local Open Scope Z_scope.
Local Open Scope py_scope.


(** The store with one more order, and with one more purchase *)
Definition with_order (s : store) (o : order) : store :=
  {| orders := orders s ++ [o]; products := products s;
     customers := customers s; purchases := purchases s |}.

Definition with_purchase (s : store) (u : purchase) : store :=
  {| orders := orders s; products := products s;
     customers := customers s; purchases := purchases s ++ [u] |}.

(** An int or a float (not a bool) *)
Definition is_number (v : value) : Prop :=
  match v with
  | VInt _ | VFloat _ => True
  | _ => False
  end.

Definition is_dict (v : value) : Prop :=
  match v with
  | VDict _ => True
  | _ => False
  end.

Ltac open_view :=
  unfold get_order, get_product, get_customer, create_order, create_purchase;
  try match goal with
      | |- context [find ?f ?l] => destruct (find f l)
      | |- context [new_purchase ?e ?r] =>
          let N := fresh "N" in destruct (new_purchase e r) eqn:N
      | |- context [new_order ?e ?r] =>
          let N := fresh "N" in destruct (new_order e r) eqn:N
      end;
  simpl.

Lemma after_cases (rt : route) (e : env) (r : request) (s : store) :
  after rt e r s = s \/
  (exists o, rt = POST_order /\ new_order e r = Ok o /\
             created (order_json o) (reply rt e r s) /\
             after rt e r s = with_order s o) \/
  (exists u, rt = POST_purchase /\ new_purchase e r = Ok u /\
             created (purchase_json u) (reply rt e r s) /\
             after rt e r s = with_purchase s u).
Proof.
  rewrite reply_view, after_view.
  destruct rt; simpl;
    try (left; unfold get_order, get_product, get_customer;
         try match goal with |- context [find ?f ?l] => destruct (find f l) end;
         reflexivity).
  - unfold create_order. destruct (new_order e r) as [o|x]; [|left; reflexivity].
    right; left. exists o. repeat split.
  - unfold create_purchase. destruct (new_purchase e r) as [u|x]; [|left; reflexivity].
    right; right. exists u. repeat split.
Qed.



Lemma after_customers (rt : route) (e : env) (r : request) (s : store) :
  customers (after rt e r s) = customers s.
Proof.
  destruct (after_cases rt e r s)
    as [-> | [[o [_ [_ [_ ->]]]] | [u [_ [_ [_ ->]]]]]]; reflexivity.
Qed.

Lemma serve_customers (reqs : list (route * env * request)) (s : store) :
  customers (serve reqs s) = customers s.
Proof.
  revert s. induction reqs as [|[[rt e] r] reqs IH]; intros s; simpl.
  - reflexivity.
  - rewrite IH. apply after_customers.
Qed.

(** X2: whatever requests were served before, the replies of GET /products,
    GET /product/{id}, GET /inventory, GET /customers and GET /customer/{id}
    are what they would have been at the start. *)
Theorem catalogue_replies_are_stable :
  forall (reqs : list (route * env * request)) (s : store) (e : env) (r : request)
         (i : string),
    reply GET_products e r (serve reqs s) = reply GET_products e r s /\
    reply (GET_product i) e r (serve reqs s) = reply (GET_product i) e r s /\
    reply GET_inventory e r (serve reqs s) = reply GET_inventory e r s /\
    reply GET_customers e r (serve reqs s) = reply GET_customers e r s /\
    reply (GET_customer i) e r (serve reqs s) = reply (GET_customer i) e r s.
Proof.
  intros reqs s e r i. rewrite !reply_view. simpl.
  unfold get_products, get_product, get_inventory, get_customers, get_customer.
  rewrite !serve_products, !serve_customers.
  repeat split;
    try (destruct (find _ (products s)); reflexivity);
    try (destruct (find _ (customers s)); reflexivity).
Qed.

(** X3: the reply of GET /analytics/sales never changes: no request completes
    an order, so after any requests the reply is the one of the store they
    started from. *)
Theorem sales_analytics_are_frozen :
  forall (reqs : list (route * env * request)) (s : store) (e e' : env)
         (r r' : request),
    reply GET_analytics_sales e r (serve reqs s) = reply GET_analytics_sales e' r' s.
Proof.
  intros reqs s e e' r r'. rewrite !reply_analytics.
  destruct (serve_orders reqs s) as [extra [E F]].
  unfold completed. now rewrite E, (completed_after_pending _ _ F).
Qed.

(** *** What a created order holds *)

Lemma py_add_number (acc v a : value) :
  is_number acc -> py_add acc v = Ok a -> is_number a.
Proof.
  intros N. unfold py_add.
  destruct acc; try contradiction; cbn [as_number].
  - destruct (as_number v) as [[q|g]|] eqn:V.
    + intros H. inversion H. exact I.
    + destruct (to_float (NInt z)); simpl; [|discriminate].
      intros H. inversion H. exact I.
    + destruct v; discriminate.
  - destruct (as_number v) as [[q|g]|] eqn:V.
    + cbn [to_float bind]. destruct (float_of_int q); simpl; [|discriminate].
      intros H. inversion H. exact I.
    + cbn [to_float bind]. intros H. inversion H. exact I.
    + destruct v; discriminate.
Qed.

Lemma sum_from_number {A : Type} (f : A -> result value) (l : list A) (acc a : value) :
  is_number acc -> sum_from f l acc = Ok a -> is_number a.
Proof.
  revert acc. induction l as [|x l IH]; intros acc N; simpl.
  - intros H. inversion H; subst. exact N.
  - destruct (f x) as [v|]; simpl; [|discriminate].
    destruct (py_add acc v) as [acc'|] eqn:P; simpl; [|discriminate].
    apply IH. exact (py_add_number acc v acc' N P).
Qed.

Lemma new_order_number (e : env) (r : request) (o : order) :
  new_order e r = Ok o -> is_number (o_total o).
Proof.
  intros N. destruct (new_order_total e r o N) as [data [l [_ [_ [_ T]]]]].
  exact (sum_from_number line_total l (VInt 0) (o_total o) I T).
Qed.

Lemma after_totals (rt : route) (e : env) (r : request) (s : store) :
  Forall (fun o => is_number (o_total o)) (orders s) ->
  Forall (fun o => is_number (o_total o)) (orders (after rt e r s)).
Proof.
  intros F.
  destruct (after_cases rt e r s)
    as [-> | [[o [_ [N [_ ->]]]] | [u [_ [_ [_ ->]]]]]]; try exact F.
  simpl. apply Forall_app. split; [exact F|].
  constructor; [exact (new_order_number e r o N)|constructor].
Qed.

(** X4: the total of a created order is always an int or a float, whatever
    the body was (a body whose items would sum to a string or a list raises
    instead); hence a store whose totals are numbers keeps that through every
    sequence of requests. *)
Theorem order_totals_are_numbers :
  (forall (e : env) (r : request) (s : store) (o : order),
      created (order_json o) (reply POST_order e r s) -> is_number (o_total o)) /\
  (forall (reqs : list (route * env * request)) (s : store),
      Forall (fun o => is_number (o_total o)) (orders s) ->
      Forall (fun o => is_number (o_total o)) (orders (serve reqs s))).
Proof.
  split.
  - intros e r s o C. unfold created in C. rewrite reply_view in C. simpl in C.
    unfold create_order in C.
    destruct (new_order e r) as [o'|x] eqn:N; simpl in C; [|discriminate].
    assert (o' = o) as ->.
    { inversion C as [J]. destruct o', o; simpl in *. congruence. }
    exact (new_order_number e r o N).
  - intros reqs. induction reqs as [|[[rt e] r] reqs IH]; intros s F; simpl.
    + exact F.
    + apply IH. now apply after_totals.
Qed.

(** A body whose only item has a string price: the term is a string *)
Definition order_with_text_price : request :=
  {| headers := [];
     get_json := Ok (VDict [("items", VList [VDict [("price", VStr "9.99");
                                                      ("quantity", VInt 2)]])]) |}.

Lemma order_totals_are_numbers_witness :
  line_total (VDict [("price", VStr "9.99"); ("quantity", VInt 2)]) = Ok (VStr "9.999.99") /\
  reply POST_order some_env order_with_text_price sample = Raise TypeError /\
  Forall (fun o => is_number (o_total o))
         (orders (serve [(POST_order, some_env, order_10_by_2);
                         (POST_order, some_env, order_with_text_price)] sample)).
Proof.
  split; [reflexivity|]. split; [reflexivity|].
  apply (proj2 order_totals_are_numbers).
  repeat constructor.
Defined.

(** *** Looking up what was created *)

Lemma find_app_id {A : Type} (key : A -> string) (i : string) (l l' : list A) :
  find (fun x => String.eqb (key x) i) (l ++ l') =
    match find (fun x => String.eqb (key x) i) l with
    | Some a => Some a
    | None => find (fun x => String.eqb (key x) i) l'
    end.
Proof.
  induction l as [|a l IH]; simpl; [reflexivity|].
  destruct (String.eqb (key a) i); [reflexivity|exact IH].
Qed.

Lemma reply_get_order (i : string) (e : env) (r : request) (s : store) :
  reply (GET_order i) e r s =
    match find (fun o => String.eqb (o_id o) i) (orders s) with
    | Some o => Ok (jsonify (order_json o))
    | None => Ok (with_status (jsonify (VDict [("error", VStr "Order not found")])) 404)
    end.
Proof.
  rewrite reply_view. simpl. unfold get_order.
  destruct (find _ (orders s)); reflexivity.
Qed.



(** The store after the example order was created, and a second request
    served with the same UUID, hence with the same id *)
Definition with_example_order : store := after POST_order some_env order_10_by_2 sample.


(** X6: an order that GET /order/{id} returns is returned again, the same,
    after any further requests: later orders are appended behind it, also
    those that come with the same id. *)
Theorem order_lookup_is_stable :
  forall (reqs : list (route * env * request)) (s : store) (e e' : env)
         (r r' : request) (i : string) (o : order),
    found (order_json o) (reply (GET_order i) e r s) ->
    found (order_json o) (reply (GET_order i) e' r' (serve reqs s)).
Proof.
  intros reqs s e e' r r' i o F. unfold found in *.
  rewrite reply_get_order in *.
  destruct (serve_orders reqs s) as [extra [E _]]. rewrite E, find_app_id.
  destruct (find _ (orders s)) as [a|]; [exact F|discriminate F].
Qed.

Lemma order_lookup_is_stable_witness :
  exists o,
    o_id o = "ord_3f2b8c1e" /\ o_total o = VInt 20 /\
    found (order_json o)
          (reply (GET_order "ord_3f2b8c1e") some_env bare_get
                 (serve [(POST_order, some_env, order_without_items);
                         (POST_purchase, some_env, purchase_of_50)]
                        with_example_order)).
Proof.
  eexists. split; [|split; [|
    exact (order_lookup_is_stable
             [(POST_order, some_env, order_without_items);
              (POST_purchase, some_env, purchase_of_50)]
             with_example_order some_env some_env bare_get bare_get
             "ord_3f2b8c1e" _ eq_refl)]];
    reflexivity.
Defined.

(** *** Bodies the two POST views refuse, and bodies they accept *)

(** X7: POST /purchase validates nothing: every JSON object is accepted with
    201, with missing fields stored as None and an order_id stored as given,
    whether or not an order has that id, and the orders are not touched; a
    body that is not a JSON object raises AttributeError, and what
    [get_json] raises is passed on. *)
Theorem purchase_accepts_any_object :
  forall (e : env) (r : request) (s : store),
    (forall kvs, get_json r = Ok (VDict kvs) ->
       exists u,
         created (purchase_json u) (reply POST_purchase e r s) /\
         u_order_id u = match dict_get kvs "order_id" with Some v => v | None => VNone end /\
         u_amount u = match dict_get kvs "amount" with Some v => v | None => VNone end /\
         after POST_purchase e r s = with_purchase s u) /\
    (forall v, get_json r = Ok v -> ~ is_dict v ->
       reply POST_purchase e r s = Raise AttributeError) /\
    (forall x, get_json r = Raise x -> reply POST_purchase e r s = Raise x).
Proof.
  intros e r s. rewrite reply_view, after_view. simpl. unfold create_purchase.
  split; [|split].
  - intros kvs H. rewrite (new_purchase_dict e r kvs H).
    eexists. repeat split.
  - intros v H D. unfold new_purchase. rewrite H.
    destruct v; try reflexivity. exfalso. apply D. exact I.
  - intros x H. unfold new_purchase. now rewrite H.
Qed.

(** A purchase for an order that does not exist, with no amount *)
Definition purchase_for_unknown_order : request :=
  {| headers := []; get_json := Ok (VDict [("order_id", VStr "ord_999")]) |}.

Lemma purchase_accepts_any_object_witness :
  (forall o, In o (orders sample) -> o_id o <> "ord_999") /\
  exists u,
    created (purchase_json u) (reply POST_purchase some_env purchase_for_unknown_order sample) /\
    u_order_id u = VStr "ord_999" /\
    u_amount u = VNone /\
    after POST_purchase some_env purchase_for_unknown_order sample = with_purchase sample u.
Proof.
  split.
  - intros o [<-|[<-|[]]]; discriminate.
  - exact (proj1 (purchase_accepts_any_object some_env purchase_for_unknown_order sample)
             [("order_id", VStr "ord_999")] eq_refl).
Defined.

(** X8: POST /order raises AttributeError on a body that is not a JSON
    object and on a list of items whose first element is not an object, and
    TypeError on "items" that cannot be iterated (null, a number, a boolean);
    "items" given as an empty object or an empty string is taken as no items:
    201 with total 0. *)
Theorem order_refuses_ill_typed_bodies :
  forall (e : env) (r : request) (s : store),
    (forall v, get_json r = Ok v -> ~ is_dict v ->
       reply POST_order e r s = Raise AttributeError) /\
    (forall kvs items, get_json r = Ok (VDict kvs) ->
       dict_get kvs "items" = Some items ->
       (forall l, items <> VList l) -> (forall d, items <> VDict d) ->
       (forall t, items <> VStr t) ->
       reply POST_order e r s = Raise TypeError) /\
    (forall kvs first rest, get_json r = Ok (VDict kvs) ->
       dict_get kvs "items" = Some (VList (first :: rest)) ->
       ~ is_dict first ->
       reply POST_order e r s = Raise AttributeError) /\
    (forall kvs items, get_json r = Ok (VDict kvs) ->
       dict_get kvs "items" = Some items ->
       items = VDict [] \/ items = VStr "" ->
       exists o, created (order_json o) (reply POST_order e r s) /\
                 o_items o = items /\ o_total o = VInt 0).
Proof.
  intros e r s. rewrite reply_view. simpl. unfold create_order.
  split; [|split; [|split]].
  - intros v H D. unfold new_order. rewrite H.
    destruct v; try reflexivity. exfalso. apply D. exact I.
  - intros kvs items H Hi NL ND NS. rewrite (new_order_dict e r kvs H), Hi.
    destruct items; try reflexivity.
    + exfalso. exact (NS s0 eq_refl).
    + exfalso. exact (NL l eq_refl).
    + exfalso. exact (ND kvs0 eq_refl).
  - intros kvs first rest H Hi D. rewrite (new_order_dict e r kvs H), Hi.
    cbv zeta. cbn [py_iter bind]. unfold py_sum. cbn [sum_from].
    unfold line_total at 1.
    destruct first; try reflexivity. exfalso. apply D. exact I.
  - intros kvs items H Hi [-> | ->]; rewrite (new_order_dict e r kvs H), Hi;
      eexists; repeat split.
Qed.

Definition order_with_null_items : request :=
  {| headers := []; get_json := Ok (VDict [("items", VNone)]) |}.

Lemma order_refuses_ill_typed_bodies_witness :
  reply POST_order some_env order_with_null_items sample = Raise TypeError /\
  after POST_order some_env order_with_null_items sample = sample.
Proof.
  split.
  - refine (proj1 (proj2 (order_refuses_ill_typed_bodies some_env order_with_null_items sample))
              [("items", VNone)] VNone eq_refl eq_refl _ _ _); discriminate.
  - reflexivity.
Defined.

(** *** What the decorator writes to the log *)






End DemoServiceStore.

(** ** More on the polling loop and the service role *)

Section ProvisionerPaths.

Import Py Deploy.
Local Open Scope string_scope.
Local Open Scope Q_scope.

(** The [i]-th poll reports neither READY nor FAILED (it may raise). *)
Definition unsettled (P : plane) (gateway_id : string) (i : nat) : Prop :=
  forall status, get_gateway P gateway_id i = Ok status ->
                 status <> "READY" /\ status <> "FAILED".

Lemma wait_loop_sound (fuel : nat) (P : plane) (gateway_id : string)
    (start max_wait : Q) (w : world) (b : bool) (w' : world) :
  wait_loop fuel P gateway_id start max_wait w = Some (b, w') ->
  (polls w <= polls w')%nat /\
  (b = true ->
   (polls w < polls w')%nat /\ get_gateway P gateway_id (pred (polls w')) = Ok "READY") /\
  (b = false ->
   ((polls w < polls w')%nat /\ get_gateway P gateway_id (pred (polls w')) = Ok "FAILED")
   \/ max_wait <= clock w' - start) /\
  (forall i, (polls w <= i)%nat -> (S i < polls w')%nat -> unsettled P gateway_id i).
Proof.
  revert w. induction fuel as [|fuel IH]; intros w; cbn [wait_loop]; [discriminate|].
  destruct (Qltb (clock w - start) max_wait) eqn:G.
  - unfold call_get_gateway.
    set (w1 := {| clock := clock w + latency P (polls w); polls := S (polls w);
                  slept := slept w |}).
    assert (Rec : wait_loop fuel P gateway_id start max_wait (sleep P 10 w1) = Some (b, w') ->
                  unsettled P gateway_id (polls w) ->
                  (polls w <= polls w')%nat /\
                  (b = true ->
                   (polls w < polls w')%nat /\
                   get_gateway P gateway_id (pred (polls w')) = Ok "READY") /\
                  (b = false ->
                   ((polls w < polls w')%nat /\
                    get_gateway P gateway_id (pred (polls w')) = Ok "FAILED")
                   \/ max_wait <= clock w' - start) /\
                  (forall i, (polls w <= i)%nat -> (S i < polls w')%nat ->
                             unsettled P gateway_id i)).
    { intros H U. destruct (IH _ H) as [L [T [F A]]].
      change (polls (sleep P 10 w1)) with (S (polls w)) in *.
      split; [lia|]. split; [|split].
      - intros Hb. destruct (T Hb) as [T1 T2]. split; [lia|exact T2].
      - intros Hb. destruct (F Hb) as [[F1 F2]|F3]; [left; split; [lia|exact F2]|right; exact F3].
      - intros i Hi Hi'. destruct (Nat.eq_dec i (polls w)) as [->|Ne]; [exact U|].
        apply A; lia. }
    destruct (get_gateway P gateway_id (polls w)) as [status|x] eqn:E.
    + destruct (String.eqb_spec status "READY") as [->|NR].
      * intros H. inversion H; subst b w'. unfold w1. cbn [polls pred].
        split; [lia|]. split; [intros _; split; [lia|exact E]|].
        split; [discriminate|]. intros i Hi Hi'. lia.
      * destruct (String.eqb_spec status "FAILED") as [->|NF].
        -- intros H. inversion H; subst b w'. unfold w1. cbn [polls pred].
           split; [lia|]. split; [discriminate|].
           split; [intros _; left; split; [lia|exact E]|]. intros i Hi Hi'. lia.
        -- intros H. apply (Rec H). intros st Hst. rewrite E in Hst.
           inversion Hst; subst. split; assumption.
    + intros H. apply (Rec H). intros st Hst. rewrite E in Hst. discriminate.
  - intros H. inversion H; subst. split; [lia|]. split; [discriminate|].
    split; [intros _; right; now apply Qltb_false|]. intros i Hi Hi'. lia.
Qed.

(** X10: whenever the polling loop returns, it returns True only if the last
    poll it made reported READY, and False only if the last poll reported
    FAILED or the budget was used up; no poll before the last one had
    reported READY or FAILED, so the loop stops at the first of them. *)
Theorem polling_result_is_sound :
  forall (fuel : nat) (P : plane) (gateway_id : string) (max_wait_time : Q)
         (w : world) (b : bool) (w' : world),
    wait_for_gateway_ready fuel P gateway_id max_wait_time w = Some (b, w') ->
    (b = true ->
     (polls w < polls w')%nat /\ get_gateway P gateway_id (pred (polls w')) = Ok "READY") /\
    (b = false ->
     ((polls w < polls w')%nat /\ get_gateway P gateway_id (pred (polls w')) = Ok "FAILED")
     \/ max_wait_time <= clock w' - clock w) /\
    (forall i, (polls w <= i)%nat -> (S i < polls w')%nat -> unsettled P gateway_id i).
Proof.
  intros fuel P g m w b w' H.
  exact (proj2 (wait_loop_sound fuel P g (clock w) m w b w' H)).
Qed.

Lemma polling_result_is_sound_witness :
  get_gateway ready_at_third "gw-demo" 2 = Ok "READY" /\
  unsettled ready_at_third "gw-demo" 0 /\ unsettled ready_at_third "gw-demo" 1.
Proof.
  pose proof (polling_result_is_sound 5 ready_at_third "gw-demo" max_wait_time_default
                at_start true
                {| clock := 1700000000 + (1 # 2) + (10 + (1 # 100)) + (1 # 2)
                            + (10 + (1 # 100)) + (1 # 2);
                   polls := 3; slept := [10; 10] |} eq_refl) as [T [_ U]].
  split; [exact (proj2 (T eq_refl))|].
  split; apply U; simpl; lia.
Defined.

Lemma wait_loop_more_fuel (fuel extra : nat) (P : plane) (gateway_id : string)
    (start max_wait : Q) (w : world) (x : bool * world) :
  wait_loop fuel P gateway_id start max_wait w = Some x ->
  wait_loop (fuel + extra) P gateway_id start max_wait w = Some x.
Proof.
  revert w. induction fuel as [|fuel IH]; intros w; [discriminate|].
  cbn [wait_loop Nat.add].
  destruct (Qltb (clock w - start) max_wait); [|trivial].
  destruct (call_get_gateway P gateway_id w) as [[status|y] w1].
  - destruct (String.eqb status "READY"); [trivial|].
    destruct (String.eqb status "FAILED"); [trivial|]. apply IH.
  - apply IH.
Qed.

(** With a clock that does not run backwards the loop ends whatever the polls
    give, after at most one poll per 10 seconds of budget. *)
Lemma wait_loop_ends (n : nat) (P : plane) (gateway_id : string)
    (start max_wait : Q) (w : world) :
  monotone P ->
  max_wait - (clock w - start) <= 10 * inject_Z (Z.of_nat n) ->
  exists b w',
    wait_loop (S n) P gateway_id start max_wait w = Some (b, w') /\
    (polls w' <= polls w + n)%nat.
Proof.
  intros [ML MO]. revert w.
  induction n as [|n IH]; intros w B.
  - change (inject_Z (Z.of_nat 0)) with 0 in B.
    exists false, w. cbn [wait_loop].
    replace (Qltb (clock w - start) max_wait) with false
      by (symmetry; apply Qltb_false; lra).
    split; [reflexivity|lia].
  - cbn [wait_loop]. destruct (Qltb (clock w - start) max_wait) eqn:G.
    + unfold call_get_gateway.
      set (w1 := {| clock := clock w + latency P (polls w); polls := S (polls w);
                    slept := slept w |}).
      assert (Rec : exists b w',
                 wait_loop (S n) P gateway_id start max_wait (sleep P 10 w1) = Some (b, w') /\
                 (polls w' <= polls w + S n)%nat).
      { destruct (IH (sleep P 10 w1)) as [b [w' [E L]]].
        - rewrite Qnat_succ in B.
          assert (C : clock (sleep P 10 w1) ==
                      clock w + latency P (polls w)
                      + (10 + oversleep P (List.length (slept w)))) by reflexivity.
          rewrite C. pose proof (ML (polls w)).
          pose proof (MO (List.length (slept w))). lra.
        - exists b, w'. split; [exact E|].
          change (polls (sleep P 10 w1)) with (S (polls w)) in L. lia. }
      destruct (get_gateway P gateway_id (polls w)) as [status|x]; [|exact Rec].
      destruct (String.eqb status "READY").
      * exists true, w1. split; [reflexivity|simpl; lia].
      * destruct (String.eqb status "FAILED"); [|exact Rec].
        exists false, w1. split; [reflexivity|simpl; lia].
    + exists false, w. split; [reflexivity|lia].
Qed.



(** *** The paths of [get_or_create_service_role] *)

Definition create_role_of (A : aws) (unique_suffix : string) : result string :=
  create_role A (role_name_of unique_suffix) trust_policy (role_description unique_suffix).

Definition create_policy_of (A : aws) (unique_suffix : string) : result string :=
  create_policy A (policy_name_of unique_suffix) policy_document
                "Basic policy for AgentCore Gateway".

Definition GetRole_of (unique_suffix : string) : call :=
  GetRole (role_name_of unique_suffix).

Definition CreateRole_of (unique_suffix : string) : call :=
  CreateRole (role_name_of unique_suffix) trust_policy (role_description unique_suffix).

Definition CreatePolicy_of (unique_suffix : string) : call :=
  CreatePolicy (policy_name_of unique_suffix) policy_document
               "Basic policy for AgentCore Gateway".

(** The function written out over the answers of the clients *)
Lemma service_role_unfolded (unique_suffix : string) (A : aws) (log : list call) :
  get_or_create_service_role unique_suffix A log =
    match get_role A (role_name_of unique_suffix) with
    | Ok arn => (Ok arn, log ++ [GetRole_of unique_suffix])
    | Raise x =>
        if NoSuchEntityException x then
          match create_role_of A unique_suffix with
          | Raise y => (Raise y, log ++ [GetRole_of unique_suffix; CreateRole_of unique_suffix])
          | Ok role_arn =>
              let attach policy_arn calls :=
                (match attach_role_policy A (role_name_of unique_suffix) policy_arn with
                 | Ok _ => Ok role_arn
                 | Raise z => Raise z
                 end,
                 log ++ calls ++ [AttachRolePolicy (role_name_of unique_suffix) policy_arn]) in
              match create_policy_of A unique_suffix with
              | Ok policy_arn =>
                  attach policy_arn [GetRole_of unique_suffix; CreateRole_of unique_suffix;
                                     CreatePolicy_of unique_suffix]
              | Raise y =>
                  if EntityAlreadyExistsException y then
                    match get_caller_identity A with
                    | Ok account_id =>
                        attach (rebuilt_policy_arn account_id unique_suffix)
                               [GetRole_of unique_suffix; CreateRole_of unique_suffix;
                                CreatePolicy_of unique_suffix; GetCallerIdentity]
                    | Raise z =>
                        (Raise z, log ++ [GetRole_of unique_suffix; CreateRole_of unique_suffix;
                                          CreatePolicy_of unique_suffix; GetCallerIdentity])
                    end
                  else (Raise y, log ++ [GetRole_of unique_suffix; CreateRole_of unique_suffix;
                                         CreatePolicy_of unique_suffix])
              end
          end
        else (Raise x, log ++ [GetRole_of unique_suffix])
    end%list.
Proof.
  unfold get_or_create_service_role, try_except, mbind, invoke, ret,
    create_role_of, create_policy_of, GetRole_of, CreateRole_of, CreatePolicy_of,
    rebuilt_policy_arn.
  fold (role_description unique_suffix).
  destruct (get_role A _) as [arn|x]; [reflexivity|].
  destruct (NoSuchEntityException x); [|reflexivity].
  destruct (create_role A _ _ _) as [role_arn|y]; [|now rewrite <- app_assoc].
  destruct (create_policy A _ _ _) as [policy_arn|y].
  - destruct (attach_role_policy A _ _); now rewrite <- !app_assoc.
  - destruct (EntityAlreadyExistsException y); [|now rewrite <- !app_assoc].
    destruct (get_caller_identity A) as [account_id|z]; [|now rewrite <- !app_assoc].
    destruct (attach_role_policy A _ _); now rewrite <- !app_assoc.
Qed.

Ltac absent H :=
  simpl in H; repeat (destruct H as [H|H]; [discriminate H|]); contradiction H.

(** X12: an existing role is returned after the single call [get_role],
    nothing being created; a role is created only after [get_role] raised
    NoSuchEntity (any other exception of [get_role] is passed on); the
    account id is asked of STS only after [create_policy] raised
    EntityAlreadyExists; and the function returns an ARN only when the role
    existed or when the policy was attached to the new role. *)
Theorem service_role_call_discipline :
  forall (unique_suffix : string) (A : aws) (log : list call),
  exists calls,
    snd (get_or_create_service_role unique_suffix A log) = (log ++ calls)%list /\
    (forall arn, get_role A (role_name_of unique_suffix) = Ok arn ->
       fst (get_or_create_service_role unique_suffix A log) = Ok arn /\
       calls = [GetRole_of unique_suffix]) /\
    (In (CreateRole_of unique_suffix) calls ->
       exists x, get_role A (role_name_of unique_suffix) = Raise x /\
                 NoSuchEntityException x = true) /\
    (forall x, get_role A (role_name_of unique_suffix) = Raise x ->
       NoSuchEntityException x = false ->
       fst (get_or_create_service_role unique_suffix A log) = Raise x /\
       calls = [GetRole_of unique_suffix]) /\
    (In GetCallerIdentity calls ->
       exists y, create_policy_of A unique_suffix = Raise y /\
                 EntityAlreadyExistsException y = true) /\
    (forall arn, fst (get_or_create_service_role unique_suffix A log) = Ok arn ->
       get_role A (role_name_of unique_suffix) = Ok arn \/
       (create_role_of A unique_suffix = Ok arn /\
        exists policy_arn,
          In (AttachRolePolicy (role_name_of unique_suffix) policy_arn) calls /\
          attach_role_policy A (role_name_of unique_suffix) policy_arn = Ok tt)).
Proof.
  intros sfx A log. rewrite service_role_unfolded.
  unfold GetRole_of, CreateRole_of, CreatePolicy_of.
  destruct (get_role A (role_name_of sfx)) as [arn|x];
    [|destruct (NoSuchEntityException x) eqn:NX;
      [destruct (create_role_of A sfx) as [role_arn|y];
       [cbv zeta;
        destruct (create_policy_of A sfx) as [policy_arn|y];
        [|destruct (EntityAlreadyExistsException y) eqn:EY;
          [destruct (get_caller_identity A) as [account_id|z]|]]|]|]];
    (eexists; split; [reflexivity|]);
    (split; [intros a H; first [discriminate H | inversion H; subst; split; reflexivity]
            |split; [intros H; first [absent H | eexists; split; [reflexivity|assumption]]
            |split; [intros x' H F;
                     first [discriminate H
                           | inversion H; subst; first [congruence | split; reflexivity]]
            |split; [intros H; first [absent H | eexists; split; [reflexivity|assumption]]
                    |intros a H; cbn [fst] in H;
                     first [discriminate H | left; exact H | right]]]]]).
  - destruct (attach_role_policy A (role_name_of sfx) policy_arn) as [[]|z] eqn:T;
      [|discriminate H].
    split; [exact H|]. exists policy_arn. split; [simpl; tauto|exact T].
  - destruct (attach_role_policy A (role_name_of sfx) (rebuilt_policy_arn account_id sfx))
      as [[]|z] eqn:T; [|discriminate H].
    split; [exact H|]. exists (rebuilt_policy_arn account_id sfx).
    split; [simpl; tauto|exact T].
Qed.

(** X13: when the role is created and [create_policy] succeeds, the ARN of
    its response is the one attached and STS is not called; when
    [create_policy] raises anything but EntityAlreadyExists, or STS raises, or
    [attach_role_policy] raises, the exception is passed on with the role
    already created and left in place: no call follows the failing one. *)
Theorem service_role_after_role_creation :
  forall (unique_suffix : string) (A : aws) (x : exn) (role_arn : string)
         (log : list call),
    get_role A (role_name_of unique_suffix) = Raise x ->
    NoSuchEntityException x = true ->
    create_role_of A unique_suffix = Ok role_arn ->
    (forall policy_arn, create_policy_of A unique_suffix = Ok policy_arn ->
       get_or_create_service_role unique_suffix A log =
         (match attach_role_policy A (role_name_of unique_suffix) policy_arn with
          | Ok _ => Ok role_arn
          | Raise z => Raise z
          end,
          log ++ [GetRole_of unique_suffix; CreateRole_of unique_suffix;
                  CreatePolicy_of unique_suffix;
                  AttachRolePolicy (role_name_of unique_suffix) policy_arn])%list) /\
    (forall y, create_policy_of A unique_suffix = Raise y ->
       EntityAlreadyExistsException y = false ->
       get_or_create_service_role unique_suffix A log =
         (Raise y, log ++ [GetRole_of unique_suffix; CreateRole_of unique_suffix;
                           CreatePolicy_of unique_suffix])%list) /\
    (forall y z, create_policy_of A unique_suffix = Raise y ->
       EntityAlreadyExistsException y = true ->
       get_caller_identity A = Raise z ->
       get_or_create_service_role unique_suffix A log =
         (Raise z, log ++ [GetRole_of unique_suffix; CreateRole_of unique_suffix;
                           CreatePolicy_of unique_suffix; GetCallerIdentity])%list).
Proof.
  intros sfx A x role_arn log G NX R.
  rewrite service_role_unfolded, G, NX, R. cbv zeta.
  split; [|split].
  - intros p ->. reflexivity.
  - intros y -> ->. reflexivity.
  - intros y z -> -> ->. reflexivity.
Qed.

(** An account in which neither the role nor the policy exists, and one in
    which creating the policy is denied *)
Definition clean_account : aws :=
  {| get_role := fun _ => Raise (ClientError "NoSuchEntity");
     create_role := fun name _ _ => Ok ("arn:aws:iam::123456789012:role/" ++ name);
     create_policy := fun name _ _ => Ok ("arn:aws:iam::123456789012:policy/" ++ name);
     get_caller_identity := Ok "123456789012";
     attach_role_policy := fun _ _ => Ok tt |}.

Definition policy_denied : aws :=
  {| get_role := fun _ => Raise (ClientError "NoSuchEntity");
     create_role := fun name _ _ => Ok ("arn:aws:iam::123456789012:role/" ++ name);
     create_policy := fun _ _ _ => Raise (ClientError "AccessDenied");
     get_caller_identity := Ok "123456789012";
     attach_role_policy := fun _ _ => Ok tt |}.

Lemma service_role_after_role_creation_witness :
  get_or_create_service_role "k3x9q2ab" clean_account [] =
    (Ok "arn:aws:iam::123456789012:role/AmazonBedrockAgentCoreGatewayServiceRole-k3x9q2ab",
     [GetRole_of "k3x9q2ab"; CreateRole_of "k3x9q2ab"; CreatePolicy_of "k3x9q2ab";
      AttachRolePolicy (role_name_of "k3x9q2ab")
                       "arn:aws:iam::123456789012:policy/AgentCoreGatewayPolicy-k3x9q2ab"]) /\
  get_or_create_service_role "k3x9q2ab" policy_denied [] =
    (Raise (ClientError "AccessDenied"),
     [GetRole_of "k3x9q2ab"; CreateRole_of "k3x9q2ab"; CreatePolicy_of "k3x9q2ab"]).
Proof.
  split.
  - exact (proj1 (service_role_after_role_creation "k3x9q2ab" clean_account
                    (ClientError "NoSuchEntity") _ [] eq_refl eq_refl eq_refl)
             _ eq_refl).
  - exact (proj1 (proj2 (service_role_after_role_creation "k3x9q2ab" policy_denied
                           (ClientError "NoSuchEntity") _ [] eq_refl eq_refl eq_refl))
             _ eq_refl eq_refl).
Defined.

End ProvisionerPaths.

(** ** The whole deployment: the other methods of [RetailGatewayDeployerBoto3] *)

Module Workflow.

Import Py Deploy.
Local Open Scope string_scope.

(** The fields of [self] set by [__init__] that the methods read; the three
    boto3 clients are in [cloud] below. *)
Record deployer : Type := {
  region : string;
  unique_suffix : string;
  timestamp : string
}.

(** What the deployment does to the world outside, in order: a call of a
    boto3 client with its keyword arguments, a call made inside
    [get_or_create_service_role], and the write of the configuration file.
    Where the code passes [json.dumps(d)], the dict [d] stands for the
    string. *)
Inductive event : Type :=
| Called (client operation : string) (kwargs : value)
| Iam (c : call)
| Wrote (filename : string) (config : value).

(** What the world answers.  Each operation gives the fields the code reads
    from the response, or raises: [create_user_pool] the pool id,
    [create_user_pool_client] the client id and secret, [create_gateway] the
    gateway id, url and ARN, [create_api_key_credential_provider] the
    provider ARN, [create_gateway_target] the target id. *)
Record cloud : Type := {
  cognito_create_user_pool : value -> result string;
  cognito_create_user_pool_domain : value -> result unit;
  cognito_create_resource_server : value -> result unit;
  cognito_create_user_pool_client : value -> result (string * string);
  iam : aws;
  agentcore_create_gateway : value -> result (string * string * string);
  control_plane : plane;
  agentcore_create_api_key_credential_provider : value -> result string;
  agentcore_create_gateway_target : value -> result string;
  write_file : string -> value -> result unit
}.

(** The state of a run: the events so far, and the clock with the polls and
    sleeps of the polling loop. *)
Record run : Type := {
  trace : list event;
  now : world
}.

(** A step of the deployment: [None] when the polling loop was given too
    little fuel, else a value or an exception, and the state after. *)
Definition W (A : Type) : Type := run -> option (result A * run).

Definition wret {A : Type} (a : A) : W A := fun st => Some (Ok a, st).

Definition wraise {A : Type} (x : exn) : W A := fun st => Some (Raise x, st).

Definition wbind {A B : Type} (m : W A) (k : A -> W B) : W B :=
  fun st =>
    match m st with
    | Some (Ok a, st') => k a st'
    | Some (Raise x, st') => Some (Raise x, st')
    | None => None
    end.

Declare Scope deploy_scope.
Delimit Scope deploy_scope with deploy.
Notation "x <~ m ;; k" := (wbind m (fun x => k))
  (at level 61, m at next level, right associativity) : deploy_scope.
Local Open Scope deploy_scope.

Definition emit (ev : event) (st : run) : run :=
  {| trace := trace st ++ [ev]; now := now st |}.

(** A call of a client operation *)
Definition called {A : Type} (client operation : string) (kwargs : value)
    (answer : value -> result A) : W A :=
  fun st => Some (answer kwargs, emit (Called client operation kwargs) st).

(** [try: m  except Exception as e: print(...)]: the exception is dropped. *)
Definition swallow {A : Type} (m : W A) : W unit :=
  fun st =>
    match m st with
    | Some (_, st') => Some (Ok tt, st')
    | None => None
    end.

(** A computation over the IAM and STS clients, its calls joining the trace *)
Definition with_iam {A : Type} (m : M A) : W A :=
  fun st =>
    let (answer, calls) := m [] in
    Some (answer, {| trace := trace st ++ map Iam calls; now := now st |}).

(** [time.sleep(d)] *)
Definition sleeping (C : cloud) (d : Q) : W unit :=
  fun st => Some (Ok tt, {| trace := trace st; now := sleep (control_plane C) d (now st) |}).

(** [self.wait_for_gateway_ready(gateway_id)], with the default budget *)
Definition waiting (fuel : nat) (C : cloud) (gateway_id : string) : W bool :=
  fun st =>
    match wait_for_gateway_ready fuel (control_plane C) gateway_id
                                 max_wait_time_default (now st) with
    | Some (ready, w') => Some (Ok ready, {| trace := trace st; now := w' |})
    | None => None
    end.

(** *** [generate_openapi_spec] *)

Definition generate_openapi_spec (api_base_url : string) : value :=
  VDict
    [("openapi", VStr "3.0.0");
     ("info",
       VDict
         [("title", VStr "Retail Demo API");
          ("description",
            VStr "Comprehensive retail management API with orders, products, customers, and analytics");
          ("version", VStr "1.0.0")]);
     ("servers",
       VList [VDict [("url", VStr api_base_url); ("description", VStr "EKS Retail API Server")]]);
     ("paths",
       VDict
         [("/health",
            VDict
              [("get",
                 VDict
                   [("operationId", VStr "checkHealth");
                    ("summary", VStr "Health check endpoint");
                    ("description", VStr "Check if the retail API service is healthy");
                    ("responses",
                      VDict
                        [("200",
                           VDict
                             [("description", VStr "Service is healthy");
                              ("content",
                                VDict
                                  [("application/json",
                                     VDict
                                       [("schema",
                                          VDict
                                            [("type", VStr "object");
                                             ("properties",
                                               VDict
                                                 [("status",
                                                    VDict
                                                      [("type", VStr "string");
                                                       ("example", VStr "healthy")]);
                                                  ("timestamp",
                                                    VDict
                                                      [("type", VStr "string");
                                                       ("format", VStr "date-time")])])])])])])])])]);
          ("/orders",
            VDict
              [("get",
                 VDict
                   [("operationId", VStr "listOrders");
                    ("summary", VStr "List all orders");
                    ("description", VStr "Retrieve a list of all orders in the system");
                    ("responses",
                      VDict
                        [("200",
                           VDict
                             [("description", VStr "List of orders");
                              ("content",
                                VDict
                                  [("application/json",
                                     VDict
                                       [("schema",
                                          VDict
                                            [("type", VStr "object");
                                             ("properties",
                                               VDict
                                                 [("orders",
                                                    VDict
                                                      [("type", VStr "array");
                                                       ("items",
                                                         VDict
                                                           [("$ref",
                                                              VStr "#/components/schemas/Order")])]);
                                                  ("count", VDict [("type", VStr "integer")])])])])])])])])]);
          ("/order/{orderId}",
            VDict
              [("get",
                 VDict
                   [("operationId", VStr "getOrder");
                    ("summary", VStr "Get specific order");
                    ("description", VStr "Retrieve details of a specific order by ID");
                    ("parameters",
                      VList
                        [VDict
                          [("name", VStr "orderId");
                           ("in", VStr "path");
                           ("required", VBool true);
                           ("schema", VDict [("type", VStr "string")]);
                           ("description", VStr "The order ID")]]);
                    ("responses",
                      VDict
                        [("200",
                           VDict
                             [("description", VStr "Order details");
                              ("content",
                                VDict
                                  [("application/json",
                                     VDict
                                       [("schema",
                                          VDict [("$ref", VStr "#/components/schemas/Order")])])])]);
                         ("404", VDict [("description", VStr "Order not found")])])])]);
          ("/order",
            VDict
              [("post",
                 VDict
                   [("operationId", VStr "createOrder");
                    ("summary", VStr "Create new order");
                    ("description", VStr "Create a new order with customer and item information");
                    ("requestBody",
                      VDict
                        [("required", VBool true);
                         ("content",
                           VDict
                             [("application/json",
                                VDict
                                  [("schema",
                                     VDict
                                       [("type", VStr "object");
                                        ("properties",
                                          VDict
                                            [("customer_id",
                                               VDict
                                                 [("type", VStr "string");
                                                  ("description", VStr "Customer identifier")]);
                                             ("items",
                                               VDict
                                                 [("type", VStr "array");
                                                  ("items",
                                                    VDict
                                                      [("type", VStr "object");
                                                       ("properties",
                                                         VDict
                                                           [("product_id",
                                                              VDict [("type", VStr "string")]);
                                                            ("name",
                                                              VDict [("type", VStr "string")]);
                                                            ("quantity",
                                                              VDict [("type", VStr "integer")]);
                                                            ("price",
                                                              VDict [("type", VStr "number")])])])])]);
                                        ("required", VList [VStr "customer_id"; VStr "items"])])])])]);
                    ("responses",
                      VDict
                        [("201",
                           VDict
                             [("description", VStr "Order created successfully");
                              ("content",
                                VDict
                                  [("application/json",
                                     VDict
                                       [("schema",
                                          VDict [("$ref", VStr "#/components/schemas/Order")])])])])])])]);
          ("/products",
            VDict
              [("get",
                 VDict
                   [("operationId", VStr "listProducts");
                    ("summary", VStr "List all products");
                    ("description", VStr "Retrieve a list of all products in the catalog");
                    ("responses",
                      VDict
                        [("200",
                           VDict
                             [("description", VStr "List of products");
                              ("content",
                                VDict
                                  [("application/json",
                                     VDict
                                       [("schema",
                                          VDict
                                            [("type", VStr "object");
                                             ("properties",
                                               VDict
                                                 [("products",
                                                    VDict
                                                      [("type", VStr "array");
                                                       ("items",
                                                         VDict
                                                           [("$ref",
                                                              VStr "#/components/schemas/Product")])]);
                                                  ("count", VDict [("type", VStr "integer")])])])])])])])])]);
          ("/product/{productId}",
            VDict
              [("get",
                 VDict
                   [("operationId", VStr "getProduct");
                    ("summary", VStr "Get specific product");
                    ("description", VStr "Retrieve details of a specific product by ID");
                    ("parameters",
                      VList
                        [VDict
                          [("name", VStr "productId");
                           ("in", VStr "path");
                           ("required", VBool true);
                           ("schema", VDict [("type", VStr "string")]);
                           ("description", VStr "The product ID")]]);
                    ("responses",
                      VDict
                        [("200",
                           VDict
                             [("description", VStr "Product details");
                              ("content",
                                VDict
                                  [("application/json",
                                     VDict
                                       [("schema",
                                          VDict [("$ref", VStr "#/components/schemas/Product")])])])]);
                         ("404", VDict [("description", VStr "Product not found")])])])]);
          ("/customers",
            VDict
              [("get",
                 VDict
                   [("operationId", VStr "listCustomers");
                    ("summary", VStr "List all customers");
                    ("description", VStr "Retrieve a list of all customers");
                    ("responses",
                      VDict
                        [("200",
                           VDict
                             [("description", VStr "List of customers");
                              ("content",
                                VDict
                                  [("application/json",
                                     VDict
                                       [("schema",
                                          VDict
                                            [("type", VStr "object");
                                             ("properties",
                                               VDict
                                                 [("customers",
                                                    VDict
                                                      [("type", VStr "array");
                                                       ("items",
                                                         VDict
                                                           [("$ref",
                                                              VStr "#/components/schemas/Customer")])]);
                                                  ("count", VDict [("type", VStr "integer")])])])])])])])])]);
          ("/customer/{customerId}",
            VDict
              [("get",
                 VDict
                   [("operationId", VStr "getCustomer");
                    ("summary", VStr "Get specific customer");
                    ("description", VStr "Retrieve details of a specific customer by ID");
                    ("parameters",
                      VList
                        [VDict
                          [("name", VStr "customerId");
                           ("in", VStr "path");
                           ("required", VBool true);
                           ("schema", VDict [("type", VStr "string")]);
                           ("description", VStr "The customer ID")]]);
                    ("responses",
                      VDict
                        [("200",
                           VDict
                             [("description", VStr "Customer details");
                              ("content",
                                VDict
                                  [("application/json",
                                     VDict
                                       [("schema",
                                          VDict [("$ref", VStr "#/components/schemas/Customer")])])])]);
                         ("404", VDict [("description", VStr "Customer not found")])])])]);
          ("/inventory",
            VDict
              [("get",
                 VDict
                   [("operationId", VStr "getInventory");
                    ("summary", VStr "Check inventory levels");
                    ("description", VStr "Retrieve current inventory levels for all products");
                    ("responses",
                      VDict
                        [("200",
                           VDict
                             [("description", VStr "Inventory information");
                              ("content",
                                VDict
                                  [("application/json",
                                     VDict
                                       [("schema",
                                          VDict
                                            [("type", VStr "object");
                                             ("properties",
                                               VDict
                                                 [("inventory",
                                                    VDict
                                                      [("type", VStr "array");
                                                       ("items",
                                                         VDict
                                                           [("type", VStr "object");
                                                            ("properties",
                                                              VDict
                                                                [("product_id",
                                                                   VDict
                                                                     [("type", VStr "string")]);
                                                                 ("name",
                                                                   VDict
                                                                     [("type", VStr "string")]);
                                                                 ("stock",
                                                                   VDict
                                                                     [("type", VStr "integer")])])])]);
                                                  ("total_products",
                                                    VDict [("type", VStr "integer")])])])])])])])])]);
          ("/analytics/sales",
            VDict
              [("get",
                 VDict
                   [("operationId", VStr "getSalesAnalytics");
                    ("summary", VStr "Get sales analytics");
                    ("description", VStr "Retrieve sales analytics and metrics");
                    ("responses",
                      VDict
                        [("200",
                           VDict
                             [("description", VStr "Sales analytics data");
                              ("content",
                                VDict
                                  [("application/json",
                                     VDict
                                       [("schema",
                                          VDict
                                            [("type", VStr "object");
                                             ("properties",
                                               VDict
                                                 [("total_sales",
                                                    VDict
                                                      [("type", VStr "number");
                                                       ("description", VStr "Total sales amount")]);
                                                  ("completed_orders",
                                                    VDict
                                                      [("type", VStr "integer");
                                                       ("description",
                                                         VStr "Number of completed orders")]);
                                                  ("average_order_value",
                                                    VDict
                                                      [("type", VStr "number");
                                                       ("description",
                                                         VStr "Average order value")])])])])])])])])]);
          ("/purchase",
            VDict
              [("post",
                 VDict
                   [("operationId", VStr "createPurchase");
                    ("summary", VStr "Process purchase");
                    ("description", VStr "Process a purchase transaction for an order");
                    ("requestBody",
                      VDict
                        [("required", VBool true);
                         ("content",
                           VDict
                             [("application/json",
                                VDict
                                  [("schema",
                                     VDict
                                       [("type", VStr "object");
                                        ("properties",
                                          VDict
                                            [("order_id",
                                               VDict
                                                 [("type", VStr "string");
                                                  ("description", VStr "Order identifier")]);
                                             ("amount",
                                               VDict
                                                 [("type", VStr "number");
                                                  ("description", VStr "Purchase amount")]);
                                             ("payment_method",
                                               VDict
                                                 [("type", VStr "string");
                                                  ("description",
                                                    VStr "Payment method (e.g., credit_card)")])]);
                                        ("required", VList [VStr "order_id"; VStr "amount"])])])])]);
                    ("responses",
                      VDict
                        [("201",
                           VDict
                             [("description", VStr "Purchase processed successfully");
                              ("content",
                                VDict
                                  [("application/json",
                                     VDict
                                       [("schema",
                                          VDict [("$ref", VStr "#/components/schemas/Purchase")])])])])])])]);
          ("/purchases",
            VDict
              [("get",
                 VDict
                   [("operationId", VStr "listPurchases");
                    ("summary", VStr "List all purchases");
                    ("description", VStr "Retrieve a list of all purchase transactions");
                    ("responses",
                      VDict
                        [("200",
                           VDict
                             [("description", VStr "List of purchases");
                              ("content",
                                VDict
                                  [("application/json",
                                     VDict
                                       [("schema",
                                          VDict
                                            [("type", VStr "object");
                                             ("properties",
                                               VDict
                                                 [("purchases",
                                                    VDict
                                                      [("type", VStr "array");
                                                       ("items",
                                                         VDict
                                                           [("$ref",
                                                              VStr "#/components/schemas/Purchase")])]);
                                                  ("count", VDict [("type", VStr "integer")])])])])])])])])])]);
     ("components",
       VDict
         [("schemas",
            VDict
              [("Order",
                 VDict
                   [("type", VStr "object");
                    ("properties",
                      VDict
                        [("id",
                           VDict
                             [("type", VStr "string");
                              ("description", VStr "Order identifier")]);
                         ("customer_id",
                           VDict
                             [("type", VStr "string");
                              ("description", VStr "Customer identifier")]);
                         ("items",
                           VDict
                             [("type", VStr "array");
                              ("items",
                                VDict
                                  [("type", VStr "object");
                                   ("properties",
                                     VDict
                                       [("product_id", VDict [("type", VStr "string")]);
                                        ("name", VDict [("type", VStr "string")]);
                                        ("quantity", VDict [("type", VStr "integer")]);
                                        ("price", VDict [("type", VStr "number")])])])]);
                         ("total",
                           VDict
                             [("type", VStr "number");
                              ("description", VStr "Total order amount")]);
                         ("status",
                           VDict
                             [("type", VStr "string");
                              ("enum",
                                VList [VStr "pending"; VStr "completed"; VStr "cancelled"])]);
                         ("created_at",
                           VDict [("type", VStr "string"); ("format", VStr "date-time")])])]);
               ("Product",
                 VDict
                   [("type", VStr "object");
                    ("properties",
                      VDict
                        [("id",
                           VDict
                             [("type", VStr "string");
                              ("description", VStr "Product identifier")]);
                         ("name",
                           VDict [("type", VStr "string"); ("description", VStr "Product name")]);
                         ("price",
                           VDict
                             [("type", VStr "number");
                              ("description", VStr "Product price")]);
                         ("category",
                           VDict
                             [("type", VStr "string");
                              ("description", VStr "Product category")]);
                         ("stock",
                           VDict
                             [("type", VStr "integer");
                              ("description", VStr "Available stock quantity")])])]);
               ("Customer",
                 VDict
                   [("type", VStr "object");
                    ("properties",
                      VDict
                        [("id",
                           VDict
                             [("type", VStr "string");
                              ("description", VStr "Customer identifier")]);
                         ("name",
                           VDict
                             [("type", VStr "string");
                              ("description", VStr "Customer name")]);
                         ("email",
                           VDict
                             [("type", VStr "string");
                              ("format", VStr "email");
                              ("description", VStr "Customer email")]);
                         ("phone",
                           VDict
                             [("type", VStr "string");
                              ("description", VStr "Customer phone number")])])]);
               ("Purchase",
                 VDict
                   [("type", VStr "object");
                    ("properties",
                      VDict
                        [("id",
                           VDict
                             [("type", VStr "string");
                              ("description", VStr "Purchase identifier")]);
                         ("order_id",
                           VDict
                             [("type", VStr "string");
                              ("description", VStr "Associated order ID")]);
                         ("payment_method",
                           VDict
                             [("type", VStr "string");
                              ("description", VStr "Payment method used")]);
                         ("payment_status",
                           VDict
                             [("type", VStr "string");
                              ("enum", VList [VStr "pending"; VStr "completed"; VStr "failed"])]);
                         ("amount",
                           VDict
                             [("type", VStr "number");
                              ("description", VStr "Purchase amount")]);
                         ("transaction_id",
                           VDict
                             [("type", VStr "string");
                              ("description", VStr "Transaction identifier")]);
                         ("processed_at",
                           VDict [("type", VStr "string"); ("format", VStr "date-time")])])])])])].

(** *** [create_cognito_user_pool] *)

(** The dict the method returns *)
Record cognito_config : Type := {
  user_pool_id : string;
  user_pool_name : string;
  domain_name : string;
  client_id : string;
  client_secret : string;
  discovery_url : string;
  token_endpoint : string
}.

Definition user_pool_kwargs (user_pool_name : string) : value :=
  VDict [("PoolName", VStr user_pool_name);
         ("Policies",
          VDict [("PasswordPolicy",
                  VDict [("MinimumLength", VInt 8);
                         ("RequireUppercase", VBool true);
                         ("RequireLowercase", VBool true);
                         ("RequireNumbers", VBool true);
                         ("RequireSymbols", VBool true);
                         ("TemporaryPasswordValidityDays", VInt 7)])]);
         ("DeletionProtection", VStr "INACTIVE")].

Definition domain_kwargs (domain_name user_pool_id : string) : value :=
  VDict [("Domain", VStr domain_name); ("UserPoolId", VStr user_pool_id)].

Definition resource_server_kwargs (user_pool_id gateway_name resource_server_name : string)
  : value :=
  VDict [("UserPoolId", VStr user_pool_id);
         ("Identifier", VStr gateway_name);
         ("Name", VStr resource_server_name);
         ("Scopes",
          VList [VDict [("ScopeName", VStr "genesis-gateway:invoke");
                        ("ScopeDescription", VStr "Invoke gateway tools")]])].

Definition client_kwargs (user_pool_id client_name scope_name : string) : value :=
  VDict [("UserPoolId", VStr user_pool_id);
         ("ClientName", VStr client_name);
         ("GenerateSecret", VBool true);
         ("AllowedOAuthFlows", VList [VStr "client_credentials"]);
         ("AllowedOAuthScopes", VList [VStr scope_name]);
         ("AllowedOAuthFlowsUserPoolClient", VBool true);
         ("SupportedIdentityProviders", VList [VStr "COGNITO"])].

(** The outer [try ... except Exception: print(...); raise] passes every
    exception on and is left out, as are the printed lines. *)
Definition create_cognito_user_pool (self : deployer) (C : cloud) (gateway_name : string)
  : W cognito_config :=
  let user_pool_name := gateway_name ++ "-user-pool-" ++ unique_suffix self in
  user_pool_id <~ called "cognito-idp" "create_user_pool"
                         (user_pool_kwargs user_pool_name)
                         (cognito_create_user_pool C) ;;
  let domain_name := gateway_name ++ "-domain-" ++ unique_suffix self in
  _ <~ swallow (called "cognito-idp" "create_user_pool_domain"
                       (domain_kwargs domain_name user_pool_id)
                       (cognito_create_user_pool_domain C)) ;;
  let resource_server_name := gateway_name ++ "-resource-server" in
  let scope_name := gateway_name ++ "/genesis-gateway:invoke" in
  _ <~ swallow (called "cognito-idp" "create_resource_server"
                       (resource_server_kwargs user_pool_id gateway_name resource_server_name)
                       (cognito_create_resource_server C)) ;;
  let client_name := gateway_name ++ "-client-" ++ unique_suffix self in
  client_response <~ called "cognito-idp" "create_user_pool_client"
                            (client_kwargs user_pool_id client_name scope_name)
                            (cognito_create_user_pool_client C) ;;
  let client_id := fst client_response in
  let client_secret := snd client_response in
  wret {| user_pool_id := user_pool_id;
          user_pool_name := user_pool_name;
          domain_name := domain_name;
          client_id := client_id;
          client_secret := client_secret;
          discovery_url :=
            "https://cognito-idp." ++ region self ++ ".amazonaws.com/" ++ user_pool_id
            ++ "/.well-known/openid-configuration";
          token_endpoint :=
            "https://" ++ domain_name ++ ".auth." ++ region self
            ++ ".amazoncognito.com/oauth2/token" |}.

(** *** [create_gateway] *)

Record gateway_config : Type := {
  gateway_id : string;
  gateway_url : string;
  gateway_arn : string
}.

Definition gateway_kwargs (self : deployer) (gateway_name : string)
    (cognito : cognito_config) (role_arn : string) : value :=
  VDict [("name", VStr gateway_name);
         ("description", VStr ("Retail Demo API Gateway - " ++ timestamp self));
         ("roleArn", VStr role_arn);
         ("protocolType", VStr "MCP");
         ("authorizerType", VStr "CUSTOM_JWT");
         ("authorizerConfiguration",
          VDict [("customJWTAuthorizer",
                  VDict [("discoveryUrl", VStr (discovery_url cognito));
                         ("allowedClients", VList [VStr (client_id cognito)])])]);
         ("exceptionLevel", VStr "DEBUG")].

Definition create_gateway (self : deployer) (C : cloud) (gateway_name : string)
    (cognito : cognito_config) (role_arn : string) : W gateway_config :=
  response <~ called "bedrock-agentcore-control" "create_gateway"
                     (gateway_kwargs self gateway_name cognito role_arn)
                     (agentcore_create_gateway C) ;;
  wret {| gateway_id := fst (fst response);
          gateway_url := snd (fst response);
          gateway_arn := snd response |}.

(** *** [create_api_key_credential_provider] and [create_openapi_target] *)

Definition provider_kwargs (self : deployer) : value :=
  VDict [("name", VStr ("retail-api-key-" ++ unique_suffix self));
         ("apiKey", VStr "public-api-no-key-required")].

Definition create_api_key_credential_provider (self : deployer) (C : cloud) : W string :=
  called "bedrock-agentcore-control" "create_api_key_credential_provider"
         (provider_kwargs self) (agentcore_create_api_key_credential_provider C).

Definition target_kwargs (self : deployer) (gateway_id : string) (openapi_spec : value)
    (provider_arn : string) : value :=
  let target_config :=
    VDict [("mcp", VDict [("openApiSchema", VDict [("inlinePayload", openapi_spec)])])] in
  let credential_config :=
    VList [VDict [("credentialProviderType", VStr "API_KEY");
                  ("credentialProvider",
                   VDict [("apiKeyCredentialProvider",
                           VDict [("providerArn", VStr provider_arn);
                                  ("credentialLocation", VStr "HEADER")])])]] in
  VDict [("gatewayIdentifier", VStr gateway_id);
         ("name", VStr ("retail-api-target-" ++ unique_suffix self));
         ("description", VStr "Retail Demo API OpenAPI Target");
         ("targetConfiguration", target_config);
         ("credentialProviderConfigurations", credential_config)].

Definition create_openapi_target (self : deployer) (C : cloud) (gateway_id : string)
    (openapi_spec : value) : W string :=
  provider_arn <~ create_api_key_credential_provider self C ;;
  called "bedrock-agentcore-control" "create_gateway_target"
         (target_kwargs self gateway_id openapi_spec provider_arn)
         (agentcore_create_gateway_target C).

(** *** [save_configuration] *)

Definition configuration (self : deployer) (gateway : gateway_config)
    (cognito : cognito_config) (target_id gateway_name : string) : value :=
  VDict [("gateway_url", VStr (gateway_url gateway));
         ("gateway_id", VStr (gateway_id gateway));
         ("client_id", VStr (client_id cognito));
         ("client_secret", VStr (client_secret cognito));
         ("token_endpoint", VStr (token_endpoint cognito));
         ("scope", VStr (gateway_name ++ "/genesis-gateway:invoke"));
         ("region", VStr (region self));
         ("target_id", VStr target_id);
         ("deployment_info",
          VDict [("deployed_at", VStr (timestamp self));
                 ("user_pool_id", VStr (user_pool_id cognito));
                 ("domain_name", VStr (domain_name cognito));
                 ("method", VStr "boto3")])].

Definition config_filename_of (self : deployer) : string :=
  "retail_gateway_config_boto3_" ++ unique_suffix self ++ ".json".

(** [open(config_filename, 'w')] and [json.dump(config, f, indent=2)] are one
    write of the dict to the file. *)
Definition save_configuration (self : deployer) (C : cloud) (gateway : gateway_config)
    (cognito : cognito_config) (target_id gateway_name : string) : W string :=
  let config := configuration self gateway cognito target_id gateway_name in
  let config_filename := config_filename_of self in
  fun st =>
    match write_file C config_filename config with
    | Ok _ => Some (Ok config_filename, emit (Wrote config_filename config) st)
    | Raise x => Some (Raise x, st)
    end.

(** *** [deploy] *)

(** The dict [deploy] returns *)
Record deployment : Type := {
  d_gateway_config : gateway_config;
  d_cognito_config : cognito_config;
  d_target_id : string;
  d_config_file : string
}.

Definition deploy (fuel : nat) (self : deployer) (C : cloud)
    (gateway_name : option string) (api_base_url : string) : W deployment :=
  let gateway_name :=
    match gateway_name with
    | None => "retail-demo-boto3-" ++ unique_suffix self
    | Some name => name
    end in
  cognito <~ create_cognito_user_pool self C gateway_name ;;
  role_arn <~ with_iam (get_or_create_service_role (unique_suffix self) (iam C)) ;;
  _ <~ sleeping C 30 ;;
  gateway <~ create_gateway self C gateway_name cognito role_arn ;;
  ready <~ waiting fuel C (gateway_id gateway) ;;
  if negb ready then wraise (OtherError "Gateway failed to become ready")
  else
    let openapi_spec := generate_openapi_spec api_base_url in
    target_id <~ create_openapi_target self C (gateway_id gateway) openapi_spec ;;
    config_file <~ save_configuration self C gateway cognito target_id gateway_name ;;
    wret {| d_gateway_config := gateway;
            d_cognito_config := cognito;
            d_target_id := target_id;
            d_config_file := config_file |}.

End Workflow.

(** ** Properties of the deployment *)

Section Deployment.

Import Py Deploy Workflow.
Local Open Scope string_scope.
Local Open Scope deploy_scope.

(** A place in a JSON value: keys of dicts and indices of lists *)
Inductive key : Type :=
| K (k : string)
| N (n : nat).

Fixpoint at_path (v : value) (path : list key) : option value :=
  match path with
  | [] => Some v
  | K k :: rest =>
      match v with
      | VDict kvs =>
          match dict_get kvs k with
          | Some v' => at_path v' rest
          | None => None
          end
      | _ => None
      end
  | N n :: rest =>
      match v with
      | VList l =>
          match nth_error l n with
          | Some v' => at_path v' rest
          | None => None
          end
      | _ => None
      end
  end.

(** The name [deploy] works with *)
Definition name_used (self : deployer) (gateway_name : option string) : string :=
  match gateway_name with
  | None => "retail-demo-boto3-" ++ unique_suffix self
  | Some name => name
  end.

(** The four Cognito calls for a gateway name and a pool id *)
Definition pool_call (self : deployer) (gateway_name : string) : event :=
  Called "cognito-idp" "create_user_pool"
         (user_pool_kwargs (gateway_name ++ "-user-pool-" ++ unique_suffix self)).

Definition pool_answer (self : deployer) (C : cloud) (gateway_name : string) : result string :=
  cognito_create_user_pool C
    (user_pool_kwargs (gateway_name ++ "-user-pool-" ++ unique_suffix self)).

Definition domain_call (self : deployer) (gateway_name pool : string) : event :=
  Called "cognito-idp" "create_user_pool_domain"
         (domain_kwargs (gateway_name ++ "-domain-" ++ unique_suffix self) pool).

Definition resource_server_call (gateway_name pool : string) : event :=
  Called "cognito-idp" "create_resource_server"
         (resource_server_kwargs pool gateway_name (gateway_name ++ "-resource-server")).

Definition the_client_kwargs (self : deployer) (gateway_name pool : string) : value :=
  client_kwargs pool (gateway_name ++ "-client-" ++ unique_suffix self)
                (gateway_name ++ "/genesis-gateway:invoke").

Definition client_call (self : deployer) (gateway_name pool : string) : event :=
  Called "cognito-idp" "create_user_pool_client" (the_client_kwargs self gateway_name pool).

Definition client_answer (self : deployer) (C : cloud) (gateway_name pool : string)
  : result (string * string) :=
  cognito_create_user_pool_client C (the_client_kwargs self gateway_name pool).

Definition cognito_calls (self : deployer) (gateway_name pool : string) : list event :=
  [pool_call self gateway_name; domain_call self gateway_name pool;
   resource_server_call gateway_name pool; client_call self gateway_name pool].

(** The dict returned for a pool id and a client *)
Definition cognito_of (self : deployer) (gateway_name pool : string)
    (client : string * string) : cognito_config :=
  {| user_pool_id := pool;
     user_pool_name := gateway_name ++ "-user-pool-" ++ unique_suffix self;
     domain_name := gateway_name ++ "-domain-" ++ unique_suffix self;
     client_id := fst client;
     client_secret := snd client;
     discovery_url :=
       "https://cognito-idp." ++ region self ++ ".amazonaws.com/" ++ pool
       ++ "/.well-known/openid-configuration";
     token_endpoint :=
       "https://" ++ (gateway_name ++ "-domain-" ++ unique_suffix self) ++ ".auth."
       ++ region self ++ ".amazoncognito.com/oauth2/token" |}.

Definition extend (st : run) (evs : list event) : run :=
  {| trace := trace st ++ evs; now := now st |}.

(** [create_cognito_user_pool] written out over the answers of Cognito *)
Lemma cognito_unfolded (self : deployer) (C : cloud) (gateway_name : string) (st : run) :
  create_cognito_user_pool self C gateway_name st =
    match pool_answer self C gateway_name with
    | Raise x => Some (Raise x, extend st [pool_call self gateway_name])
    | Ok pool =>
        match client_answer self C gateway_name pool with
        | Raise x => Some (Raise x, extend st (cognito_calls self gateway_name pool))
        | Ok client =>
            Some (Ok (cognito_of self gateway_name pool client),
                  extend st (cognito_calls self gateway_name pool))
        end
    end.
Proof.
  unfold create_cognito_user_pool, wbind, called, swallow, wret,
    pool_answer, client_answer, cognito_calls, pool_call, domain_call,
    resource_server_call, client_call, the_client_kwargs.
  destruct (cognito_create_user_pool C _) as [pool|x]; [|reflexivity].
  unfold emit, extend. cbn [trace now].
  destruct (cognito_create_user_pool_client C _) as [client|x];
    rewrite <- !app_assoc; reflexivity.
Qed.

(** The later steps of [deploy]: their calls and what they return *)
Definition iam_run (self : deployer) (C : cloud) : result string * list call :=
  get_or_create_service_role (unique_suffix self) (iam C) [].

Definition gateway_call (self : deployer) (gateway_name : string)
    (cognito : cognito_config) (role_arn : string) : event :=
  Called "bedrock-agentcore-control" "create_gateway"
         (gateway_kwargs self gateway_name cognito role_arn).

Definition gateway_of (response : string * string * string) : gateway_config :=
  {| gateway_id := fst (fst response);
     gateway_url := snd (fst response);
     gateway_arn := snd response |}.

Definition provider_call (self : deployer) : event :=
  Called "bedrock-agentcore-control" "create_api_key_credential_provider"
         (provider_kwargs self).

Definition target_call (self : deployer) (gateway_id : string) (openapi_spec : value)
    (provider_arn : string) : event :=
  Called "bedrock-agentcore-control" "create_gateway_target"
         (target_kwargs self gateway_id openapi_spec provider_arn).

(** The clock after the 30 seconds given to IAM *)
Definition rested (C : cloud) (st : run) : world := sleep (control_plane C) 30 (now st).

Definition not_ready : exn := OtherError "Gateway failed to become ready".

Definition at_world (st : run) (evs : list event) (w : world) : run :=
  {| trace := trace st ++ evs; now := w |}.

(** [deploy] written out over the answers of the world *)
Definition deploy_outline (fuel : nat) (self : deployer) (C : cloud)
    (gateway_name : option string) (api_base_url : string) (st : run)
  : option (result deployment * run) :=
  let name := name_used self gateway_name in
  match pool_answer self C name with
  | Raise x => Some (Raise x, extend st [pool_call self name])
  | Ok pool =>
      match client_answer self C name pool with
      | Raise x => Some (Raise x, extend st (cognito_calls self name pool))
      | Ok client =>
          let cognito := cognito_of self name pool client in
          let evs1 := (cognito_calls self name pool ++ map Iam (snd (iam_run self C)))%list in
          match fst (iam_run self C) with
          | Raise x => Some (Raise x, extend st evs1)
          | Ok role_arn =>
              let evs2 := (evs1 ++ [gateway_call self name cognito role_arn])%list in
              match agentcore_create_gateway C (gateway_kwargs self name cognito role_arn) with
              | Raise x => Some (Raise x, at_world st evs2 (rested C st))
              | Ok response =>
                  let gateway := gateway_of response in
                  match wait_for_gateway_ready fuel (control_plane C) (gateway_id gateway)
                                               max_wait_time_default (rested C st) with
                  | None => None
                  | Some (false, w) => Some (Raise not_ready, at_world st evs2 w)
                  | Some (true, w) =>
                      let spec := generate_openapi_spec api_base_url in
                      match agentcore_create_api_key_credential_provider C
                              (provider_kwargs self) with
                      | Raise x => Some (Raise x, at_world st (evs2 ++ [provider_call self])%list w)
                      | Ok provider_arn =>
                          let evs3 :=
                            (evs2 ++ [provider_call self;
                                      target_call self (gateway_id gateway) spec
                                                  provider_arn])%list in
                          match agentcore_create_gateway_target C
                                  (target_kwargs self (gateway_id gateway) spec provider_arn) with
                          | Raise x => Some (Raise x, at_world st evs3 w)
                          | Ok target_id =>
                              let config := configuration self gateway cognito target_id name in
                              match write_file C (config_filename_of self) config with
                              | Raise x => Some (Raise x, at_world st evs3 w)
                              | Ok _ =>
                                  Some (Ok {| d_gateway_config := gateway;
                                              d_cognito_config := cognito;
                                              d_target_id := target_id;
                                              d_config_file := config_filename_of self |},
                                        at_world st
                                          (evs3 ++ [Wrote (config_filename_of self) config])%list
                                          w)
                              end
                          end
                      end
                  end
              end
          end
      end
  end.

Lemma deploy_unfolded (fuel : nat) (self : deployer) (C : cloud)
    (gateway_name : option string) (api_base_url : string) (st : run) :
  deploy fuel self C gateway_name api_base_url st =
  deploy_outline fuel self C gateway_name api_base_url st.
Proof.
  unfold deploy, deploy_outline. fold (name_used self gateway_name).
  set (name := name_used self gateway_name).
  unfold wbind at 1. rewrite cognito_unfolded.
  destruct (pool_answer self C name) as [pool|x]; [|reflexivity].
  destruct (client_answer self C name pool) as [client|x]; [|reflexivity].
  cbv zeta. unfold wbind at 1. unfold with_iam, iam_run.
  destruct (get_or_create_service_role (unique_suffix self) (iam C) [])
    as [[role_arn|x] calls]; cbn [fst snd];
    [|unfold extend; cbn [trace now]; now rewrite <- app_assoc].
  unfold wbind at 1. unfold sleeping. cbn [trace now].
  unfold wbind at 1. unfold create_gateway, wbind at 1. unfold called.
  unfold emit, extend, at_world, rested. cbn [trace now].
  destruct (agentcore_create_gateway C _) as [response|x];
    [|now rewrite <- !app_assoc].
  unfold wret at 1. fold (gateway_of response).
  unfold wbind at 1. unfold waiting. cbn [trace now].
  destruct (wait_for_gateway_ready _ _ _ _ _) as [[[|] w]|]; [| |reflexivity].
  2:{ cbn [negb]. unfold wraise, not_ready. now rewrite <- !app_assoc. }
  cbn [negb]. unfold wbind at 1. unfold create_openapi_target, wbind at 1.
  unfold create_api_key_credential_provider, called, emit. cbn [trace now].
  destruct (agentcore_create_api_key_credential_provider C _) as [provider_arn|x];
    [|unfold provider_call; now rewrite <- !app_assoc].
  destruct (agentcore_create_gateway_target C _) as [target_id|x];
    [|unfold provider_call, target_call; now rewrite <- !app_assoc].
  unfold wbind, save_configuration, emit, wret. cbn [trace now].
  destruct (write_file C _ _) as [[]|x];
    unfold provider_call, target_call; now rewrite <- !app_assoc.
Qed.

(** *** Worlds for the examples *)

Definition demo_deployer : deployer :=
  {| region := "us-east-1"; unique_suffix := "k3x9q2ab"; timestamp := "20240201-090000" |}.

(** Everything succeeds, and the gateway is READY at the third poll. *)
Definition fair_weather : cloud :=
  {| cognito_create_user_pool := fun _ => Ok "us-east-1_Ab12Cd34E";
     cognito_create_user_pool_domain := fun _ => Ok tt;
     cognito_create_resource_server := fun _ => Ok tt;
     cognito_create_user_pool_client := fun _ => Ok ("4h5j6k7l8m9n", "s3cr3t-value");
     iam := clean_account;
     agentcore_create_gateway :=
       fun _ => Ok ("gw-7f3a", "https://gw-7f3a.gateway.example/mcp",
                    "arn:aws:bedrock-agentcore:us-east-1:123456789012:gateway/gw-7f3a");
     control_plane := ready_at_third;
     agentcore_create_api_key_credential_provider :=
       fun _ => Ok "arn:aws:bedrock-agentcore:us-east-1:123456789012:provider/retail";
     agentcore_create_gateway_target := fun _ => Ok "tgt-01";
     write_file := fun _ _ => Ok tt |}.

(** The same, but the domain and the resource server cannot be created. *)
Definition domain_taken : cloud :=
  {| cognito_create_user_pool := cognito_create_user_pool fair_weather;
     cognito_create_user_pool_domain := fun _ => Raise (ClientError "InvalidParameterException");
     cognito_create_resource_server := fun _ => Raise (ClientError "LimitExceededException");
     cognito_create_user_pool_client := cognito_create_user_pool_client fair_weather;
     iam := clean_account;
     agentcore_create_gateway := agentcore_create_gateway fair_weather;
     control_plane := ready_at_third;
     agentcore_create_api_key_credential_provider :=
       agentcore_create_api_key_credential_provider fair_weather;
     agentcore_create_gateway_target := agentcore_create_gateway_target fair_weather;
     write_file := fun _ _ => Ok tt |}.

(** The same as [fair_weather], but the gateway FAILED at the second poll. *)
Definition gateway_fails : cloud :=
  {| cognito_create_user_pool := cognito_create_user_pool fair_weather;
     cognito_create_user_pool_domain := fun _ => Ok tt;
     cognito_create_resource_server := fun _ => Ok tt;
     cognito_create_user_pool_client := cognito_create_user_pool_client fair_weather;
     iam := clean_account;
     agentcore_create_gateway := agentcore_create_gateway fair_weather;
     control_plane := failed_at_second;
     agentcore_create_api_key_credential_provider :=
       agentcore_create_api_key_credential_provider fair_weather;
     agentcore_create_gateway_target := agentcore_create_gateway_target fair_weather;
     write_file := fun _ _ => Ok tt |}.

Definition fresh_run : run := {| trace := []; now := at_start |}.

(** *** The Cognito resources *)

(** X14: [create_cognito_user_pool] goes on when the hosted domain or the
    resource server cannot be created: whatever these two calls answer or
    raise, if the pool and the app client are created the method returns the
    configuration, after the same four calls in the same order.  The token
    endpoint it returns is built from the domain name also when no such
    domain was created. *)
Theorem cognito_setup_tolerates_domain_and_scope_failures :
  forall (self : deployer) (C : cloud) (gateway_name : string) (st : run)
         (pool : string) (client : string * string),
    pool_answer self C gateway_name = Ok pool ->
    client_answer self C gateway_name pool = Ok client ->
    create_cognito_user_pool self C gateway_name st =
      Some (Ok (cognito_of self gateway_name pool client),
            extend st (cognito_calls self gateway_name pool)).
Proof.
  intros self C name st pool client HP HC.
  now rewrite cognito_unfolded, HP, HC.
Qed.

Lemma cognito_setup_tolerates_failures_witness :
  cognito_create_user_pool_domain domain_taken
    (domain_kwargs "retail-domain-k3x9q2ab" "us-east-1_Ab12Cd34E")
    = Raise (ClientError "InvalidParameterException") /\
  exists cfg st',
    create_cognito_user_pool demo_deployer domain_taken "retail" fresh_run = Some (Ok cfg, st') /\
    token_endpoint cfg
      = "https://retail-domain-k3x9q2ab.auth.us-east-1.amazoncognito.com/oauth2/token" /\
    List.length (trace st') = 4%nat.
Proof.
  split; [reflexivity|].
  eexists. eexists. split; [|split].
  - exact (cognito_setup_tolerates_domain_and_scope_failures demo_deployer domain_taken
             "retail" fresh_run _ _ eq_refl eq_refl).
  - reflexivity.
  - reflexivity.
Defined.

(** X15: the two other Cognito calls are fatal: when [create_user_pool]
    raises, the exception is passed on and no other call is made; when
    [create_user_pool_client] raises, the exception is passed on after the
    pool (and what else could be created) has been created, and nothing is
    deleted. *)
Theorem cognito_setup_fails_with_pool_or_client :
  forall (self : deployer) (C : cloud) (gateway_name : string) (st : run) (x : exn),
    (pool_answer self C gateway_name = Raise x ->
     create_cognito_user_pool self C gateway_name st =
       Some (Raise x, extend st [pool_call self gateway_name])) /\
    (forall pool,
       pool_answer self C gateway_name = Ok pool ->
       client_answer self C gateway_name pool = Raise x ->
       create_cognito_user_pool self C gateway_name st =
         Some (Raise x, extend st (cognito_calls self gateway_name pool))).
Proof.
  intros self C name st x. split.
  - intros HP. now rewrite cognito_unfolded, HP.
  - intros pool HP HC. now rewrite cognito_unfolded, HP, HC.
Qed.

(** Cognito refuses the pool, or only the client *)
Definition no_pool : cloud :=
  {| cognito_create_user_pool := fun _ => Raise (ClientError "LimitExceededException");
     cognito_create_user_pool_domain := fun _ => Ok tt;
     cognito_create_resource_server := fun _ => Ok tt;
     cognito_create_user_pool_client := cognito_create_user_pool_client fair_weather;
     iam := clean_account;
     agentcore_create_gateway := agentcore_create_gateway fair_weather;
     control_plane := ready_at_third;
     agentcore_create_api_key_credential_provider :=
       agentcore_create_api_key_credential_provider fair_weather;
     agentcore_create_gateway_target := agentcore_create_gateway_target fair_weather;
     write_file := fun _ _ => Ok tt |}.

Lemma cognito_setup_fails_witness :
  create_cognito_user_pool demo_deployer no_pool "retail" fresh_run =
    Some (Raise (ClientError "LimitExceededException"),
          extend fresh_run [pool_call demo_deployer "retail"]).
Proof.
  exact (proj1 (cognito_setup_fails_with_pool_or_client demo_deployer no_pool "retail"
                  fresh_run (ClientError "LimitExceededException")) eq_refl).
Defined.

(** *** The target *)

(** X16: [create_openapi_target] asks for the credential provider first and
    never asks for the target when that fails; when it succeeds, the target
    is requested for the given gateway, with the given document as its schema
    payload and with the ARN of the provider just created as its API-key
    credential, placed in the header. *)
Theorem target_carries_its_credential_provider :
  forall (self : deployer) (C : cloud) (gateway_id : string) (spec : value) (st : run),
    (forall x,
       agentcore_create_api_key_credential_provider C (provider_kwargs self) = Raise x ->
       create_openapi_target self C gateway_id spec st =
         Some (Raise x, extend st [provider_call self])) /\
    (forall provider_arn,
       agentcore_create_api_key_credential_provider C (provider_kwargs self)
         = Ok provider_arn ->
       let kwargs := target_kwargs self gateway_id spec provider_arn in
       create_openapi_target self C gateway_id spec st =
         Some (agentcore_create_gateway_target C kwargs,
               extend st [provider_call self;
                          target_call self gateway_id spec provider_arn]) /\
       at_path kwargs [K "gatewayIdentifier"] = Some (VStr gateway_id) /\
       at_path kwargs [K "targetConfiguration"; K "mcp"; K "openApiSchema";
                       K "inlinePayload"] = Some spec /\
       at_path kwargs [K "credentialProviderConfigurations"; N 0; K "credentialProvider";
                       K "apiKeyCredentialProvider"; K "providerArn"]
         = Some (VStr provider_arn) /\
       at_path kwargs [K "credentialProviderConfigurations"; N 0; K "credentialProvider";
                       K "apiKeyCredentialProvider"; K "credentialLocation"]
         = Some (VStr "HEADER")).
Proof.
  intros self C gid spec st. split.
  - intros x H.
    unfold create_openapi_target, create_api_key_credential_provider, wbind, called.
    now rewrite H.
  - intros parn H kwargs. split; [|repeat split].
    unfold create_openapi_target, create_api_key_credential_provider, wbind, called.
    rewrite H. unfold emit, extend, provider_call, target_call. cbn [trace now].
    now rewrite <- app_assoc.
Qed.

Lemma target_carries_its_credential_provider_witness :
  create_openapi_target demo_deployer fair_weather "gw-7f3a" (VDict []) fresh_run =
    Some (Ok "tgt-01",
          extend fresh_run
            [provider_call demo_deployer;
             target_call demo_deployer "gw-7f3a" (VDict [])
               "arn:aws:bedrock-agentcore:us-east-1:123456789012:provider/retail"]).
Proof.
  exact (proj1 (proj2 (target_carries_its_credential_provider demo_deployer fair_weather
                         "gw-7f3a" (VDict []) fresh_run)
                  "arn:aws:bedrock-agentcore:us-east-1:123456789012:provider/retail"
                  eq_refl)).
Defined.

(** *** The order of the steps of [deploy] *)











(** *** What a finished deployment holds together *)

Definition called_in (evs : list event) (operation : string) (kwargs : value) : Prop :=
  exists client, In (Called client operation kwargs) evs.

(** X19: in every run of [deploy] that returns, the pieces fit: the gateway
    was created with the role ARN that [get_or_create_service_role] returned
    and with the discovery URL and client id of the Cognito configuration as
    its JWT authorizer; the target was created for the returned gateway id
    with a schema whose server URL is the API URL given to [deploy]; and the
    scope written to the configuration is the one scope the OAuth client was
    allowed, the name in use followed by /genesis-gateway:invoke. *)
Theorem deployed_pieces_fit :
  forall (fuel : nat) (self : deployer) (C : cloud) (gateway_name : option string)
         (api_base_url : string) (st : run) (d : deployment) (st' : run),
    deploy fuel self C gateway_name api_base_url st = Some (Ok d, st') ->
    exists evs client_kw gateway_kw target_kw role_arn,
      trace st' = (trace st ++ evs)%list /\
      called_in evs "create_user_pool_client" client_kw /\
      called_in evs "create_gateway" gateway_kw /\
      called_in evs "create_gateway_target" target_kw /\
      fst (iam_run self C) = Ok role_arn /\
      at_path gateway_kw [K "roleArn"] = Some (VStr role_arn) /\
      at_path gateway_kw [K "authorizerConfiguration"; K "customJWTAuthorizer";
                          K "discoveryUrl"]
        = Some (VStr (discovery_url (d_cognito_config d))) /\
      at_path gateway_kw [K "authorizerConfiguration"; K "customJWTAuthorizer";
                          K "allowedClients"]
        = Some (VList [VStr (client_id (d_cognito_config d))]) /\
      at_path target_kw [K "gatewayIdentifier"]
        = Some (VStr (gateway_id (d_gateway_config d))) /\
      at_path target_kw [K "targetConfiguration"; K "mcp"; K "openApiSchema";
                         K "inlinePayload"; K "servers"; N 0; K "url"]
        = Some (VStr api_base_url) /\
      at_path client_kw [K "AllowedOAuthScopes"]
        = Some (VList [VStr (name_used self gateway_name ++ "/genesis-gateway:invoke")]) /\
      at_path (configuration self (d_gateway_config d) (d_cognito_config d) (d_target_id d)
                 (name_used self gateway_name)) [K "scope"]
        = Some (VStr (name_used self gateway_name ++ "/genesis-gateway:invoke")).
Proof.
  intros fuel self C gateway_name api st d st'.
  rewrite deploy_unfolded. unfold deploy_outline.
  set (name := name_used self gateway_name).
  destruct (pool_answer self C name) as [pool|x]; [|discriminate].
  destruct (client_answer self C name pool) as [client|x]; [|discriminate].
  cbv zeta. destruct (iam_run self C) as [[role_arn|x] calls]; cbn [fst snd]; [|discriminate].
  set (cognito := cognito_of self name pool client).
  destruct (agentcore_create_gateway C (gateway_kwargs self name cognito role_arn))
    as [response|x]; [|discriminate].
  destruct (wait_for_gateway_ready _ _ _ _ _) as [[[|] w]|]; [|discriminate|discriminate].
  destruct (agentcore_create_api_key_credential_provider C (provider_kwargs self))
    as [provider_arn|x]; [|discriminate].
  destruct (agentcore_create_gateway_target C _) as [target_id|x]; [|discriminate].
  destruct (write_file C _ _) as [[]|x]; [|discriminate].
  intros H. inversion H; subst d st'. clear H.
  set (spec := generate_openapi_spec api).
  set (gw := gateway_of response).
  exists ((((cognito_calls self name pool ++ map Iam calls)
            ++ [gateway_call self name cognito role_arn])
           ++ [provider_call self; target_call self (gateway_id gw) spec provider_arn])
          ++ [Wrote (config_filename_of self)
                (configuration self gw cognito target_id name)])%list.
  exists (the_client_kwargs self name pool).
  exists (gateway_kwargs self name cognito role_arn).
  exists (target_kwargs self (gateway_id gw) spec provider_arn).
  exists role_arn.
  split; [reflexivity|].
  split.
  { exists "cognito-idp". repeat (apply in_or_app; left).
    unfold cognito_calls, client_call. simpl. tauto. }
  split.
  { exists "bedrock-agentcore-control". do 2 (apply in_or_app; left).
    apply in_or_app. right. left. reflexivity. }
  split.
  { exists "bedrock-agentcore-control". apply in_or_app. left.
    apply in_or_app. right. right. left. reflexivity. }
  repeat split.
Qed.

Lemma deployed_pieces_fit_witness :
  exists d st',
    deploy 31 demo_deployer fair_weather None "https://retail.example.com" fresh_run
      = Some (Ok d, st') /\
    exists target_kw,
      called_in (trace st') "create_gateway_target" target_kw /\
      at_path target_kw [K "targetConfiguration"; K "mcp"; K "openApiSchema";
                         K "inlinePayload"; K "servers"; N 0; K "url"]
        = Some (VStr "https://retail.example.com") /\
      at_path (configuration demo_deployer (d_gateway_config d) (d_cognito_config d)
                 (d_target_id d) "retail-demo-boto3-k3x9q2ab") [K "scope"]
        = Some (VStr "retail-demo-boto3-k3x9q2ab/genesis-gateway:invoke").
Proof.
  destruct (deploy 31 demo_deployer fair_weather None "https://retail.example.com" fresh_run)
    as [[[d|x] st']|] eqn:D; [|vm_compute in D; discriminate D|discriminate D].
  destruct (deployed_pieces_fit 31 demo_deployer fair_weather None
              "https://retail.example.com" fresh_run d st' D)
    as [evs [ckw [gkw [tkw [role [E [_ [_ [T [_ [_ [_ [_ [_ [U [_ S]]]]]]]]]]]]]]]].
  exists d, st'. split; [reflexivity|].
  exists tkw. split; [rewrite E; exact T|]. split; [exact U|exact S].
Defined.

(** X20: with a clock that does not run backwards and 31 or more tests of
    the polling condition allowed, [deploy] always ends: it returns or it
    raises, whatever the services answer. *)
Theorem deploy_always_ends :
  forall (self : deployer) (C : cloud) (gateway_name : option string)
         (api_base_url : string) (st : run) (extra : nat),
    monotone (control_plane C) ->
    exists r st', deploy (31 + extra) self C gateway_name api_base_url st = Some (r, st').
Proof.
  intros self C gateway_name api st extra M.
  rewrite deploy_unfolded. unfold deploy_outline.
  set (name := name_used self gateway_name).
  destruct (pool_answer self C name) as [pool|x]; [|eauto].
  destruct (client_answer self C name pool) as [client|x]; [|eauto].
  cbv zeta. destruct (iam_run self C) as [[role_arn|x] calls]; cbn [fst snd]; [|eauto].
  destruct (agentcore_create_gateway C _) as [response|x]; [|eauto].
  destruct (wait_loop_ends 30 (control_plane C) (gateway_id (gateway_of response))
              (clock (rested C st)) max_wait_time_default (rested C st) M)
    as [b [w [E _]]].
  { pose proof (budget_allows 30 (le_n 30)). lra. }
  unfold wait_for_gateway_ready.
  rewrite (wait_loop_more_fuel 31 extra _ _ _ _ _ _ E).
  destruct b; [|eauto].
  destruct (agentcore_create_api_key_credential_provider C _) as [provider_arn|x]; [|eauto].
  destruct (agentcore_create_gateway_target C _) as [target_id|x]; [|eauto].
  destruct (write_file C _ _) as [[]|x]; eauto.
Qed.

Lemma deploy_always_ends_witness :
  exists r st',
    deploy 40 demo_deployer gateway_fails (Some "retail") "https://retail.example.com"
           fresh_run = Some (r, st').
Proof.
  exact (deploy_always_ends demo_deployer gateway_fails (Some "retail")
           "https://retail.example.com" fresh_run 9 (scripted_monotone _)).
Defined.

End Deployment.
